(** * dune_bot: the Dune query poller, the result formatter and the
      conversation handlers of the Telegram bot, embedded and verified.

    The embedding follows [src/dune_bot.py] function by function.  Python
    [str] values are lists of Unicode code points, so [len] is [length];
    dictionaries whose iteration order the code relies on (result rows) are
    association lists, the others ([context.user_data], query parameters)
    are finite maps.  Remote collaborators (the Dune API, the token lookup)
    are an oracle record [world]; every call the code makes to them and to
    the chat transport is recorded in a trace of [event]s. *)

From Stdlib Require Import ZArith NArith List Bool Lia String Ascii DecimalString.
From stdpp Require Import gmap list.
Import ListNotations.

Local Open Scope Z_scope.

(* ===================================================================== *)
(** ** Text *)
(* ===================================================================== *)

(** A Python [str]: a sequence of code points. *)
Abbreviation str := (list N).

Definition len (s : str) : Z := Z.of_nat (length s).

(** Source literals are written as UTF-8 string literals and decoded to
    code points, so that an emoji counts for one character as in Python. *)
Fixpoint bytes_of (s : string) : list N :=
  match s with
  | EmptyString => []
  | String a s' => N_of_ascii a :: bytes_of s'
  end.

Definition cont (b : N) : N := N.land b 63.

Fixpoint utf8_decode (bs : list N) : str :=
  match bs with
  | [] => []
  | b0 :: t0 =>
    if (b0 <? 128)%N then b0 :: utf8_decode t0
    else
      match t0 with
      | [] => []
      | b1 :: t1 =>
        if (b0 <? 224)%N then
          (N.land b0 31 * 64 + cont b1)%N :: utf8_decode t1
        else
          match t1 with
          | [] => []
          | b2 :: t2 =>
            if (b0 <? 240)%N then
              (N.land b0 15 * 4096 + cont b1 * 64 + cont b2)%N :: utf8_decode t2
            else
              match t2 with
              | [] => []
              | b3 :: t3 =>
                (N.land b0 7 * 262144 + cont b1 * 4096 + cont b2 * 64 + cont b3)%N
                  :: utf8_decode t3
              end
          end
      end
  end.

Definition u (s : string) : str := utf8_decode (bytes_of s).

(** Number of bytes of [s.encode("utf-8")]. *)
Definition utf8_len (s : str) : Z :=
  fold_right
    (fun c acc =>
       (if (c <? 128)%N then 1
        else if (c <? 2048)%N then 2
        else if (c <? 65536)%N then 3 else 4) + acc)
    0 s.

Definition nl : str := [10%N].

(** [str.isspace] on one character (the table behind [str.strip()]). *)
Definition isspace (c : N) : bool :=
  ((9 <=? c) && (c <=? 13) || (28 <=? c) && (c <=? 32)
   || (c =? 133) || (c =? 160) || (c =? 5760)
   || (8192 <=? c) && (c <=? 8202)
   || (c =? 8232) || (c =? 8233) || (c =? 8239) || (c =? 8287)
   || (c =? 12288))%N.

Fixpoint lstrip (s : str) : str :=
  match s with
  | [] => []
  | c :: s' => if isspace c then lstrip s' else s
  end.

Definition rstrip (s : str) : str := rev (lstrip (rev s)).

(** [s.strip()] *)
Definition strip (s : str) : str := rstrip (lstrip s).

(** The code point of the digit zero of every block of decimal digits
    (Unicode category Nd, Unicode 14): [\d] in a [str] pattern matches
    all of them, not only ASCII 0-9. *)
Definition decimal_zeros : list N :=
  [48; 1632; 1776; 1984; 2406; 2534; 2662; 2790; 2918; 3046; 3174; 3302;
   3430; 3558; 3664; 3792; 3872; 4160; 4240; 6112; 6160; 6470; 6608; 6784;
   6800; 6992; 7088; 7232; 7248; 42528; 43216; 43264; 43472; 43504; 43600;
   44016; 65296; 66720; 68912; 69734; 69872; 69942; 70096; 70384; 70736;
   70864; 71248; 71360; 71472; 71904; 72016; 72784; 73040; 73120; 92768;
   92864; 93008; 120782; 120792; 120802; 120812; 120822; 123200; 123632;
   125264; 130032]%N.

Definition isdecimal (c : N) : bool :=
  existsb (fun z => (z <=? c) && (c <=? z + 9))%N decimal_zeros.

(** The two kinds of item of [DATETIME_PATTERN]. *)
Inductive item :=
| Digit               (* \d *)
| Lit (c : N).        (* a literal character *)

Definition item_matches (i : item) (c : N) : bool :=
  match i with
  | Digit => isdecimal c
  | Lit c' => (c =? c')%N
  end.

(** Consume the items from the start of [s]; what is left of [s]. *)
Fixpoint match_items (p : list item) (s : str) : option str :=
  match p with
  | [] => Some s
  | i :: p' =>
    match s with
    | [] => None
    | c :: s' => if item_matches i c then match_items p' s' else None
    end
  end.

Definition hyphen : N := 45%N.
Definition space : N := 32%N.
Definition colon : N := 58%N.

(** [\d{4}-\d{2}-\d{2} \d{2}:\d{2}:\d{2}] *)
Definition datetime_items : list item :=
  [Digit; Digit; Digit; Digit; Lit hyphen; Digit; Digit; Lit hyphen;
   Digit; Digit; Lit space; Digit; Digit; Lit colon; Digit; Digit;
   Lit colon; Digit; Digit].

(** [DATETIME_PATTERN.match(s)] as a truth value.  [match] anchors at the
    start; [$] matches at the end of the string and also just before a
    newline that ends the string. *)
Definition DATETIME_PATTERN_match (s : str) : bool :=
  match match_items datetime_items s with
  | Some [] => true
  | Some [c] => (c =? 10)%N
  | _ => false
  end.

(* ===================================================================== *)
(** ** Data model *)
(* ===================================================================== *)

(** A JSON value of a result row. *)
Inductive value :=
| VStr (s : str)
| VInt (z : Z)
| VBool (b : bool)
| VNone
| VOther (shown : str).  (* a float, list or object, with the text str() gives *)

(** A result row: a [dict], in insertion order. *)
Abbreviation row := (list (str * value)).

Definition keys (r : row) : list str := map fst r.

(** [r.get(k)] *)
Fixpoint get (r : row) (k : str) : option value :=
  match r with
  | [] => None
  | (k', v) :: r' => if bool_decide (k' = k) then Some v else get r' k
  end.

(** The body of [GET /execution/{id}/results]: both levels may be absent. *)
Record result_obj := { rows : option (list row) }.
Record results_json := { result : option result_obj }.

(** [results.get("result", {}).get("rows", [])] *)
Definition rows_of (results : results_json) : list row :=
  match result results with
  | None => []
  | Some r => match rows r with None => [] | Some l => l end
  end.

Definition QUERY_STATE_COMPLETED : str := u "QUERY_STATE_COMPLETED".
Definition QUERY_STATE_FAILED : str := u "QUERY_STATE_FAILED".
Definition QUERY_STATE_CANCELLED : str := u "QUERY_STATE_CANCELLED".

(** The states in which the poller stops polling. *)
Definition terminal (state : str) : bool :=
  bool_decide (state = QUERY_STATE_COMPLETED)
  || bool_decide (state = QUERY_STATE_FAILED)
  || bool_decide (state = QUERY_STATE_CANCELLED).

(** What the code can raise. *)
Inductive exn :=
| HTTPError                    (* raise_for_status(), or no connection *)
| KeyError (key : str)         (* d[key] on a missing key *)
| IndexError                   (* l[0] on an empty list *)
| QueryFailed (state : str)    (* Exception(f"Query failed: {status}") *)
| TimeoutError                 (* TimeoutError("Query did not finish ...") *)
| FormatError                  (* a :.2f format on a value that has none *)
| ValueError (fields : list str) (* DictWriter: fields not in fieldnames *)
| NegativeSleep                (* ValueError of time.sleep on a negative length *)
| UnicodeEncodeError.          (* str.encode("utf-8") on a lone surrogate *)

(** A reply of a remote service. *)
Inductive reply (A : Type) :=
| Ok (a : A)
| Failed.
Arguments Ok {A} a.
Arguments Failed {A}.

(** ConversationHandler states; [None] stands for ConversationHandler.END. *)
Inductive conv_state := ASK_CA_TOP | ASK_CA_TRADES | ASK_START | ASK_END.
Definition END : option conv_state := None.

(** What is shown in an edited status message. *)
Inductive notice :=
| Text (s : str)
| ErrorNotice (e : exn).       (* f"❌ Error: {e}" *)

(** The calls the code makes to its collaborators, in order. *)
Inductive event :=
| ReplyText (text : str)                   (* update.message.reply_text *)
| EditText (n : notice)                    (* status_msg.edit_text *)
| ReplyDocument (filename document caption : str)
                                           (* reply_document; the attachment
                                              is the UTF-8 encoding of
                                              [document] *)
| TokenLookup (ca : str)                   (* GET api.dexscreener.com *)
| Execute (query_id : Z) (params : gmap str str)
                                           (* POST /query/{id}/execute *)
| GetStatus (execution_id : str)           (* GET /execution/{id}/status *)
| GetResults (execution_id : str)          (* GET /execution/{id}/results *)
| Sleep (seconds : Z).                     (* time.sleep *)

(** The Query Client calls among the events. *)
Definition is_query_client (e : event) : bool :=
  match e with
  | Execute _ _ | GetStatus _ | GetResults _ => true
  | _ => false
  end.

Definition is_status_check (e : event) : bool :=
  match e with GetStatus _ => true | _ => false end.

Definition is_sleep (e : event) : bool :=
  match e with Sleep _ => true | _ => false end.

Definition is_document (e : event) : bool :=
  match e with ReplyDocument _ _ _ => true | _ => false end.

(** The remote side.  [status_reply k] answers the [k]-th status check
    (counted from 0) with the "state" entry of the body, when it has one. *)
Record world := {
  token_reply : str -> option str;
  execute_reply : Z -> gmap str str -> reply (option str);
  status_reply : nat -> reply (option str);
  results_reply : reply results_json;
}.

(** The mutable part: the user's [context.user_data], the trace so far and
    the number of status checks already answered. *)
Record st := {
  user_data : gmap str str;
  trace : list event;
  polls : nat;
}.

(** ** A state-and-exception monad *)

Inductive outcome (A : Type) :=
| Ret (a : A)
| Raise (e : exn)
| OutOfFuel.
Arguments Ret {A} a.
Arguments Raise {A} e.
Arguments OutOfFuel {A}.

Definition M (A : Type) : Type := st -> outcome A * st.

Definition ret {A} (a : A) : M A := fun s => (Ret a, s).
Definition raise {A} (e : exn) : M A := fun s => (Raise e, s).
Definition out_of_fuel {A} : M A := fun s => (OutOfFuel, s).

Definition bind {A B} (m : M A) (k : A -> M B) : M B :=
  fun s =>
    match m s with
    | (Ret a, s') => k a s'
    | (Raise e, s') => (Raise e, s')
    | (OutOfFuel, s') => (OutOfFuel, s')
    end.

(** [try: m  except Exception as e: h e] *)
Definition try_except {A} (m : M A) (h : exn -> M A) : M A :=
  fun s =>
    match m s with
    | (Raise e, s') => h e s'
    | r => r
    end.

#[export] Instance M_ret : MRet M := @ret.
#[export] Instance M_bind : MBind M := fun A B k m => bind m k.

Definition emit (e : event) : M unit :=
  fun s => (Ret tt, {| user_data := user_data s;
                       trace := trace s ++ [e];
                       polls := polls s |}).

(** [context.user_data[k] = v] *)
Definition set_user_data (k v : str) : M unit :=
  fun s => (Ret tt, {| user_data := <[k := v]> (user_data s);
                       trace := trace s;
                       polls := polls s |}).

(** [context.user_data[k]] *)
Definition get_user_data (k : str) : M str :=
  fun s =>
    match user_data s !! k with
    | Some v => (Ret v, s)
    | None => (Raise (KeyError k), s)
    end.

Definition of_reply {A} (r : reply A) : M A :=
  match r with
  | Ok a => ret a
  | Failed => raise HTTPError
  end.

(** [d[k]] on a body whose entry [k] is [o]. *)
Definition getitem {A} (k : str) (o : option A) : M A :=
  match o with
  | Some a => ret a
  | None => raise (KeyError k)
  end.

(* ===================================================================== *)
(** ** Dune helpers *)
(* ===================================================================== *)

Section Dune.

Variable w : world.

(** [execute_query]: the body of the reply, as its "execution_id" entry. *)
Definition execute_query (query_id : Z) (params : gmap str str)
  : M (option str) :=
  emit (Execute query_id params);;
  of_reply (execute_reply w query_id params).

(** [get_status]: the body of the reply, as its "state" entry. *)
Definition get_status (execution_id : str) : M (option str) :=
  fun s =>
    of_reply (status_reply w (polls s))
      {| user_data := user_data s;
         trace := trace s ++ [GetStatus execution_id];
         polls := S (polls s) |}.

Definition get_results (execution_id : str) : M results_json :=
  emit (GetResults execution_id);;
  of_reply (results_reply w).

(** [time.sleep(seconds)]: a negative length is refused with a
    ValueError, and nothing is slept. *)
Definition sleep (seconds : Z) : M unit :=
  if seconds <? 0 then raise NegativeSleep else emit (Sleep seconds).

(** The [while] loop of [run_query]; [budget] is [max_wait_minutes * 60].
    Every iteration costs one unit of [fuel]. *)
Fixpoint poll (fuel : nat) (execution_id : str)
    (budget poll_interval waited : Z) : M results_json :=
  if waited <? budget then
    match fuel with
    | O => out_of_fuel
    | S fuel' =>
      status ← get_status execution_id;
      state ← getitem (u "state") status;
      if bool_decide (state = QUERY_STATE_COMPLETED) then
        get_results execution_id
      else if bool_decide (state = QUERY_STATE_FAILED)
              || bool_decide (state = QUERY_STATE_CANCELLED) then
        raise (QueryFailed state)
      else
        sleep poll_interval;;
        poll fuel' execution_id budget poll_interval (waited + poll_interval)
    end
  else raise TimeoutError.

Definition run_query (fuel : nat) (query_id : Z) (params : gmap str str)
    (max_wait_minutes poll_interval : Z) : M results_json :=
  exec_response ← execute_query query_id params;
  execution_id ← getitem (u "execution_id") exec_response;
  poll fuel execution_id (max_wait_minutes * 60) poll_interval 0.

End Dune.

(* ===================================================================== *)
(** ** Rendering values, and the csv module's writer *)
(* ===================================================================== *)

(** [str(v)], which is also what an f-string field [{v}] gives. *)
Definition py_str (v : value) : str :=
  match v with
  | VStr s => s
  | VInt z => bytes_of (NilZero.string_of_int (Z.to_int z))
  | VBool true => u "True"
  | VBool false => u "False"
  | VNone => u "None"
  | VOther shown => shown
  end.

(** [f"{row.get(k)}"] *)
Definition shown_get (r : row) (k : str) : str :=
  match get r k with
  | Some v => py_str v
  | None => u "None"
  end.

Definition comma : N := 44%N.
Definition dquote : N := 34%N.
Definition CR : N := 13%N.
Definition LF : N := 10%N.

(** Characters that make the writer quote a field (excel dialect,
    QUOTE_MINIMAL): delimiter, quotechar, and those of the line
    terminator. *)
Definition special (c : N) : bool :=
  ((c =? comma) || (c =? dquote) || (c =? CR) || (c =? LF))%N.

(** Doubling of the quote character inside a quoted field. *)
Fixpoint escape (f : str) : str :=
  match f with
  | [] => []
  | c :: f' => if (c =? dquote)%N then dquote :: dquote :: escape f'
               else c :: escape f'
  end.

Definition write_field (f : str) : str :=
  if existsb special f then dquote :: escape f ++ [dquote] else f.

Fixpoint join_fields (fs : list str) : str :=
  match fs with
  | [] => []
  | [f] => write_field f
  | f :: fs' => write_field f ++ comma :: join_fields fs'
  end.

(** [csv.writer.writerow]: a record made of one empty field is written as
    an empty quoted field; every record ends with CR LF. *)
Definition writerow (fs : list str) : str :=
  match fs with
  | [ [] ] => [dquote; dquote]
  | _ => join_fields fs
  end ++ [CR; LF].

(** The text the csv writer gives a cell: nothing for [None], [str(v)]
    for what is not a string. *)
Definition cell (v : value) : str :=
  match v with
  | VNone => []
  | _ => py_str v
  end.

(** The cells of a row under the header: [rowdict.get(key, restval)] for
    each field name, with [restval=""]. *)
Definition cells (fieldnames : list str) (rowdict : row) : list str :=
  map (fun k => match get rowdict k with
                | Some v => cell v
                | None => []
                end) fieldnames.

(** [DictWriter._dict_to_list] with the defaults [restval=""] and
    [extrasaction="raise"]. *)
Definition dict_to_list (fieldnames : list str) (rowdict : row)
  : exn + list str :=
  match filter (fun k => k ∉ fieldnames) (keys rowdict) with
  | [] => inr (cells fieldnames rowdict)
  | wrong_fields => inl (ValueError wrong_fields)
  end.

(** [DictWriter.writerows(rows)], appending to [output]. *)
Fixpoint writerows (fieldnames : list str) (rows : list row) (output : str)
  : exn + str :=
  match rows with
  | [] => inr output
  | r :: rows' =>
    match dict_to_list fieldnames r with
    | inl e => inl e
    | inr fs => writerows fieldnames rows' (output ++ writerow fs)
    end
  end.

(** Lines 253-257 of [fetch_trades]: [output.getvalue()] after
    [writeheader()] and [writerows(rows)], with [fieldnames] the keys of
    the first row. *)
Definition export_csv (rows : list row) : exn + str :=
  match rows with
  | [] => inl IndexError
  | first :: _ =>
    let fieldnames := keys first in
    writerows fieldnames rows (writerow fieldnames)
  end.

(** A surrogate code point, the one kind of character of a [str] that
    UTF-8 does not encode. *)
Definition surrogate (c : N) : bool := ((55296 <=? c) && (c <=? 57343))%N.

(** [s.encode("utf-8")] of line 259: it raises on a lone surrogate.  The
    bytes of a document are given by the text that they encode. *)
Definition encode_utf8 (s : str) : exn + str :=
  if existsb surrogate s then inl UnicodeEncodeError else inr s.

Definition of_sum {A} (r : exn + A) : M A :=
  match r with
  | inl e => raise e
  | inr a => mret a
  end.

(* ===================================================================== *)
(** ** Telegram handlers *)
(* ===================================================================== *)

Definition INVALID_CA : str := u "⚠️ Invalid Solana contract address format.".
Definition INVALID_FORMAT : str :=
  u "⚠️ Invalid format! Try again: YYYY-MM-DD HH:MM:SS".
Definition NO_RESULTS : str := u "⚠️ No results found.".
Definition TOO_LARGE : str := u "📂 Results too large, sending CSV...".
Definition CAPTION : str := u "📊 Full query results".
Definition UNKNOWN_TOKEN : str := u "Unknown Token".

Definition CONTRACT_ADDRESS : str := u "contract_address".
Definition START_TIME : str := u "start_time".
Definition END_TIME : str := u "end_time".

(** [32 <= len(ca) <= 44] *)
Definition valid_ca (ca : str) : bool := (32 <=? len ca) && (len ca <=? 44).

(** The prompt of [ask_end] for the end time. *)
Definition GOT_START_TIME : str :=
  u "✅ Got start time." ++ nl
  ++ u "Now enter *end date* (YYYY-MM-DD HH:MM:SS):".

(** The status message of [handle_ca_top]. *)
Definition top_status (token_name : str) : str :=
  u "✅ Token confirmed: *" ++ token_name ++ u "*" ++ nl ++ nl
  ++ u "⏳ Running query...".

(** The status message of [fetch_trades]. *)
Definition trades_status (ca start_time end_time : str) : str :=
  u "📡 Running query..." ++ nl ++ nl
  ++ u "CA: `" ++ ca ++ u "`" ++ nl
  ++ u "From: " ++ start_time ++ nl
  ++ u "To: " ++ end_time.

(** One entry of the inline view of [fetch_trades]. *)
Definition trade_entry (r : row) : str :=
  u "⏰ " ++ shown_get r (u "trade_date") ++ nl
  ++ u "👤 " ++ shown_get r (u "trader_id") ++ nl
  ++ u "💠 " ++ shown_get r (u "token_bought_symbol")
  ++ u " — $" ++ shown_get r (u "amount_usd") ++ nl ++ nl.

(** The inline view: a title and the first 20 rows. *)
Definition trades_message (rows : list row) : str :=
  fold_left (fun message r => message ++ trade_entry r) (take 20 rows)
            (u "📊 Query Results:" ++ nl ++ nl).

Section Handlers.

Variable w : world.
(** Configuration read from the environment. *)
Variables TOP_TRADERS_QUERY TRADES_QUERY : Z.
(** [format(v, ".2f")], where it is defined. *)
Variable format_2f : value -> option str.
(** Fuel given to each call of [run_query]. *)
Variable fuel : nat.

(** [get_token_name]: any failure of the lookup gives the fallback. *)
Definition get_token_name (ca : str) : M str :=
  emit (TokenLookup ca);;
  mret (default UNKNOWN_TOKEN (token_reply w ca)).

Definition fmt_2f (v : value) : M str :=
  match format_2f v with
  | Some s => mret s
  | None => raise FormatError
  end.

(** One entry of the view of [handle_ca_top]. *)
Definition top_entry (r : row) : M str :=
  trader_id ← getitem (u "trader_id") (get r (u "trader_id"));
  profit_usd ← getitem (u "profit_usd") (get r (u "profit_usd"));
  profit ← fmt_2f profit_usd;
  roi ← getitem (u "roi") (get r (u "roi"));
  roi_s ← fmt_2f roi;
  mret (u "👤 `" ++ py_str trader_id ++ u "`" ++ nl
        ++ u "💰 Profit: " ++ profit ++ u " USD" ++ nl
        ++ u "📈 ROI: " ++ roi_s ++ nl
        ++ u "---" ++ nl).

Fixpoint top_message (msg : str) (rows : list row) : M str :=
  match rows with
  | [] => mret msg
  | r :: rows' =>
    entry ← top_entry r;
    top_message (msg ++ entry) rows'
  end.

(** Lines 155-170 of [handle_ca_top]: what is done with the fetched
    results. *)
Definition top_view (token_name : str) (results : results_json)
  : M (option conv_state) :=
  match rows_of results with
  | [] =>
    emit (EditText (Text NO_RESULTS));;
    mret END
  | first :: rest =>
    msg ← top_message (u "📊 *Top Traders for " ++ token_name ++ u "*"
                       ++ nl ++ nl) (first :: rest);
    emit (EditText (Text msg));;
    mret END
  end.

(** [except Exception as e] of both flows. *)
Definition report_error (e : exn) : M (option conv_state) :=
  emit (EditText (ErrorNotice e));;
  mret END.

Definition handle_ca_top (text : str) : M (option conv_state) :=
  let ca := strip text in
  if negb (valid_ca ca) then
    emit (ReplyText INVALID_CA);;
    mret END
  else
    token_name ← get_token_name ca;
    emit (ReplyText (top_status token_name));;
    try_except
      (results ← run_query w fuel TOP_TRADERS_QUERY {[ u "CA" := ca ]} 30 5;
       top_view token_name results)
      report_error.

Definition ask_start (text : str) : M (option conv_state) :=
  let ca := strip text in
  if negb (valid_ca ca) then
    emit (ReplyText INVALID_CA);;
    mret END
  else
    token_name ← get_token_name ca;
    set_user_data CONTRACT_ADDRESS ca;;
    emit (ReplyText (u "✅ Token confirmed: *" ++ token_name ++ u "*" ++ nl ++ nl
                     ++ u "Now enter *start date* (YYYY-MM-DD HH:MM:SS):"));;
    mret (Some ASK_START).

Definition ask_end (text : str) : M (option conv_state) :=
  let start_time := strip text in
  if negb (DATETIME_PATTERN_match start_time) then
    emit (ReplyText INVALID_FORMAT);;
    mret (Some ASK_START)
  else
    set_user_data START_TIME start_time;;
    emit (ReplyText GOT_START_TIME);;
    mret (Some ASK_END).

(** The query parameters of the trades query. *)
Definition trades_params (ca start_time end_time : str) : gmap str str :=
  <[ u "contract address" := ca ]>
    (<[ u "start time" := start_time ]> {[ u "end time" := end_time ]}).

(** The inline view of lines 247-250: the message, or the notice when the
    message has more than 4096 characters. *)
Definition inline_view (message : str) : notice :=
  if len message <=? 4096 then Text message else Text TOO_LARGE.

(** Lines 233-262 of [fetch_trades]: what is done with the fetched
    results. *)
Definition trades_view (ca : str) (results : results_json)
  : M (option conv_state) :=
  match rows_of results with
  | [] =>
    emit (EditText (Text NO_RESULTS));;
    mret END
  | first :: rest =>
    emit (EditText (inline_view (trades_message (first :: rest))));;
    output ← of_sum (export_csv (first :: rest));
    document ← of_sum (encode_utf8 output);
    emit (ReplyDocument (u "trades_" ++ ca ++ u ".csv") document CAPTION);;
    mret END
  end.

Definition fetch_trades (text : str) : M (option conv_state) :=
  let end_time := strip text in
  if negb (DATETIME_PATTERN_match end_time) then
    emit (ReplyText INVALID_FORMAT);;
    mret (Some ASK_END)
  else
    set_user_data END_TIME end_time;;
    ca ← get_user_data CONTRACT_ADDRESS;
    start_time ← get_user_data START_TIME;
    emit (ReplyText (trades_status ca start_time end_time));;
    try_except
      (results ← run_query w fuel TRADES_QUERY
                   (trades_params ca start_time end_time) 30 5;
       trades_view ca results)
      report_error.

(** The [states] table of the ConversationHandler built in [main]. *)
Definition states (s : conv_state) : str -> M (option conv_state) :=
  match s with
  | ASK_CA_TOP => handle_ca_top
  | ASK_CA_TRADES => ask_start
  | ASK_START => ask_end
  | ASK_END => fetch_trades
  end.

End Handlers.

(* ===================================================================== *)
(** ** Reading the export back *)
(* ===================================================================== *)

(** The states of the reader: where it stands in the current record. *)
Inductive rstate :=
| StartRecord | StartField | InField | InQuoted | QuoteInQuoted | AfterCR.

(** Modelled from the spec: the re-parse of the tabular file.  The
    repository only writes the file; the spec's round trip reads it back
    as "delimited text, header row ..., one line per row thereafter".
    The reader is the usual one for that format: comma-separated fields,
    records ended by CR LF, fields optionally enclosed in double quotes
    with an embedded quote doubled, an empty line being a record without
    fields.  A bare CR or LF outside quotes, a character after a closing
    quote and an unclosed quote make the text malformed.  [recs], [fields]
    and [field] are accumulated in reverse. *)
Fixpoint parse (state : rstate) (recs : list (list str)) (fields : list str)
    (field : str) (input : str) : option (list (list str)) :=
  match input with
  | [] =>
    match state with
    | StartRecord => Some (rev recs)
    | StartField | InField | QuoteInQuoted =>
      Some (rev (rev (rev field :: fields) :: recs))
    | InQuoted | AfterCR => None
    end
  | c :: rest =>
    match state with
    | StartRecord | StartField =>
      if (c =? CR)%N then
        match state with
        | StartRecord => parse AfterCR (rev fields :: recs) [] [] rest
        | _ => parse AfterCR (rev ([] :: fields) :: recs) [] [] rest
        end
      else if (c =? LF)%N then None
      else if (c =? dquote)%N then parse InQuoted recs fields [] rest
      else if (c =? comma)%N then parse StartField recs ([] :: fields) [] rest
      else parse InField recs fields [c] rest
    | InField =>
      if (c =? CR)%N then
        parse AfterCR (rev (rev field :: fields) :: recs) [] [] rest
      else if (c =? LF)%N then None
      else if (c =? comma)%N then
        parse StartField recs (rev field :: fields) [] rest
      else parse InField recs fields (c :: field) rest
    | InQuoted =>
      if (c =? dquote)%N then parse QuoteInQuoted recs fields field rest
      else parse InQuoted recs fields (c :: field) rest
    | QuoteInQuoted =>
      if (c =? dquote)%N then parse InQuoted recs fields (c :: field) rest
      else if (c =? comma)%N then
        parse StartField recs (rev field :: fields) [] rest
      else if (c =? CR)%N then
        parse AfterCR (rev (rev field :: fields) :: recs) [] [] rest
      else None
    | AfterCR =>
      if (c =? LF)%N then parse StartRecord recs fields field rest
      else None
    end
  end.

(** The states in which the reader expects a field to begin. *)
Definition starting (state : rstate) : Prop :=
  state = StartRecord \/ state = StartField.

(** Modelled from the spec: the re-parse of a whole file, giving its
    records, the header first. *)
Definition read_csv (document : str) : option (list (list str)) :=
  parse StartRecord [] [] [] document.

(* ===================================================================== *)
(** ** Observations on traces, and sample inputs *)
(* ===================================================================== *)

(** How many events of a trace satisfy [p]. *)
Definition count (p : event -> bool) (tr : list event) : nat :=
  length (List.filter p tr).

(** The state in which a run starts: nothing stored, nothing traced. *)
Definition initial : st := {| user_data := ∅; trace := []; polls := 0 |}.

Definition with_trace (s : st) (tr : list event) (n : nat) : st :=
  {| user_data := user_data s; trace := tr; polls := n |}.

(** [n] rounds of the loop that see no terminal state. *)
Fixpoint rounds (n : nat) (execution_id : str) (poll_interval : Z)
  : list event :=
  match n with
  | O => []
  | S n' => GetStatus execution_id :: Sleep poll_interval
            :: rounds n' execution_id poll_interval
  end.

Definition QUERY_STATE_PENDING : str := u "QUERY_STATE_PENDING".

(** A remote side on which the execution stays pending for ever. *)
Definition w_pending : world :=
  {| token_reply := fun _ => None;
     execute_reply := fun _ _ => Ok (Some (u "01HX"));
     status_reply := fun _ => Ok (Some QUERY_STATE_PENDING);
     results_reply := Failed |}.

(** A remote side on which the execution has failed. *)
Definition w_failed : world :=
  {| token_reply := fun _ => None;
     execute_reply := fun _ _ => Ok (Some (u "01HX"));
     status_reply := fun _ => Ok (Some QUERY_STATE_FAILED);
     results_reply := Failed |}.

(** What the result formatter shows: edits of the status message and
    documents. *)
Definition is_output (e : event) : bool :=
  match e with
  | EditText _ | ReplyDocument _ _ _ => true
  | _ => false
  end.

Definition outputs (tr : list event) : list event := List.filter is_output tr.

(** A computation that shows nothing and leaves [user_data] alone: it
    only extends the trace, by events that are not outputs. *)
Definition quiet {A} (m : M A) : Prop :=
  forall s o s',
    m s = (o, s') ->
    exists evs,
      trace s' = trace s ++ evs /\ outputs evs = [] /\ user_data s' = user_data s.

(** The state in which [handle_ca_top] launches its query. *)
Definition top_launch (w : world) (ca : str) (s : st) : st :=
  with_trace s
    (trace s ++ [TokenLookup ca;
                 ReplyText (top_status (default UNKNOWN_TOKEN (token_reply w ca)))])
    (polls s).

(** The state in which [fetch_trades] launches its query. *)
Definition trades_launch (ca start_time end_time : str) (s : st) : st :=
  {| user_data := <[END_TIME := end_time]> (user_data s);
     trace := trace s ++ [ReplyText (trades_status ca start_time end_time)];
     polls := polls s |}.

(** Every key of the row is a column of the header. *)
Definition fits (fieldnames : list str) (r : row) : Prop :=
  forall k, k ∈ keys r -> k ∈ fieldnames.

(** No key of the row and no text of one of its cells holds a lone
    surrogate. *)
Definition encodable (s : str) : bool := negb (existsb surrogate s).

Definition encodable_row (r : row) : bool :=
  forallb (fun kv => encodable (fst kv) && encodable (cell (snd kv))) r.

(** The row has the same column set as [first]. *)
Definition same_columns (first r : row) : Prop :=
  forall k, k ∈ keys r <-> k ∈ keys first.

(** A remote side on which the execution is complete at the first check
    and the results hold [rs]. *)
Definition w_done (rs : list row) : world :=
  {| token_reply := fun _ => Some (u "Wrapped SOL");
     execute_reply := fun _ _ => Ok (Some (u "01HX"));
     status_reply := fun _ => Ok (Some QUERY_STATE_COMPLETED);
     results_reply := Ok {| result := Some {| rows := Some rs |} |} |}.

Definition a_ca : str := u "So11111111111111111111111111111111111111112".
Definition a_start : str := u "2025-09-01 00:00:00".
Definition an_end : str := u "2025-09-05 23:59:59".

(** A session that has gone through the address and the start time. *)
Definition s_ready : st :=
  {| user_data := <[START_TIME := a_start]> {[CONTRACT_ADDRESS := a_ca]};
     trace := [];
     polls := 0 |}.

Definition a_trade (trader : str) : row :=
  [(u "trade_date", VStr (u "2025-09-02 10:00:00"));
   (u "trader_id", VStr trader);
   (u "token_bought_symbol", VStr (u "SOL"));
   (u "amount_usd", VInt 12)].

(** A trade whose trader id alone is longer than the inline limit. *)
Definition a_long_trade : row := a_trade (repeat 97%N 5000).

(** A row with a column the first row does not have. *)
Definition a_trade_with_fee : row := a_trade (u "bob") ++ [(u "fee", VInt 1)].

(** A row whose trader is a lone surrogate, as the JSON text "\ud800"
    decodes to. *)
Definition a_surrogate_trade : row := a_trade [55296%N].

(** A row without most of the columns of the first row. *)
Definition a_short_trade : row := [(u "trader_id", VStr (u "bob"))].

(** The state in which the poller hands the rows [rs] to [fetch_trades],
    on [w_done rs] and from [s_ready]. *)
Definition s_fetched (rs : list row) : st :=
  snd (run_query (w_done rs) 1 2 (trades_params a_ca a_start (strip an_end)) 30 5
         (trades_launch a_ca a_start (strip an_end) s_ready)).

(** The same for [handle_ca_top], from [initial]. *)
Definition s_fetched_top (rs : list row) : st :=
  snd (run_query (w_done rs) 1 1 {[ u "CA" := strip a_ca ]} 30 5
         (top_launch (w_done rs) (strip a_ca) initial)).

(** A start time with a space in front. *)
Definition a_padded_start : str := space :: a_start.

(** Twenty trades whose inline view has fewer than 4096 characters and
    more than 4096 bytes. *)
Definition twenty_trades : list row := repeat (a_trade (repeat 97%N 160)) 20.

(* ===================================================================== *)
(** ** Further observations: time slept, sessions, conversations *)
(* ===================================================================== *)

(** The total time asked of [time.sleep] along a trace. *)
Definition slept (tr : list event) : Z :=
  fold_right (fun e acc => match e with Sleep t => t + acc | _ => acc end) 0 tr.

Definition is_results_fetch (e : event) : bool :=
  match e with GetResults _ => true | _ => false end.

Definition is_execute (e : event) : bool :=
  match e with Execute _ _ => true | _ => false end.

(** What the loop of [run_query] raises on a status reply that ends the
    run without results: a transport failure, a body without "state", or
    the states FAILED and CANCELLED. *)
Definition status_failure (r : reply (option str)) : option exn :=
  match r with
  | Failed => Some HTTPError
  | Ok None => Some (KeyError (u "state"))
  | Ok (Some state) =>
    if bool_decide (state = QUERY_STATE_FAILED)
       || bool_decide (state = QUERY_STATE_CANCELLED)
    then Some (QueryFailed state)
    else None
  end.

(** What [run_query] raises when the submission gives no execution id. *)
Definition submit_failure (r : reply (option str)) : option exn :=
  match r with
  | Failed => Some HTTPError
  | Ok None => Some (KeyError (u "execution_id"))
  | Ok (Some _) => None
  end.

(** The ways a run of the loop can end after its rounds: before a check
    (budget spent, or no fuel), on a check that raises, or on a check
    that sees COMPLETED and is followed by the one fetch of the results. *)
Definition run_end (execution_id : str) (tail : list event) : Prop :=
  tail = []
  \/ tail = [GetStatus execution_id]
  \/ tail = [GetStatus execution_id; GetResults execution_id].

(** A run of the loop of [run_query] from [s] to [s'] with outcome [o]:
    [k] rounds, each begun within the budget on a state that is not
    terminal, then the ending [tail]; results are fetched only on a check
    that saw COMPLETED, and a returned value is what that fetch gave. *)
Definition loop_run (w : world) (execution_id : str)
    (budget poll_interval waited : Z) (s s' : st) (o : outcome results_json)
    (k : nat) (tail : list event) : Prop :=
  trace s' = trace s ++ rounds k execution_id poll_interval ++ tail
  /\ run_end execution_id tail
  /\ user_data s' = user_data s
  /\ (forall j, (j < k)%nat ->
        waited + Z.of_nat j * poll_interval < budget
        /\ exists state, status_reply w (polls s + j) = Ok (Some state)
                         /\ terminal state = false)
  /\ (tail = [GetStatus execution_id; GetResults execution_id] ->
      status_reply w (polls s + k) = Ok (Some QUERY_STATE_COMPLETED))
  /\ (forall r, o = Ret r ->
        tail = [GetStatus execution_id; GetResults execution_id]
        /\ results_reply w = Ok r).

(** A computation that leaves [context.user_data] alone. *)
Definition keeps_session {A} (m : M A) : Prop :=
  forall s o s', m s = (o, s') -> user_data s' = user_data s.

(** What the trades flow stores is what it has validated: an address of
    32 to 44 characters, and timestamps of exactly the 19 characters of
    the pattern. *)
Definition timestamp_ok (t : str) : Prop :=
  match_items datetime_items t = Some [].

Definition session_ok (ud : gmap str str) : Prop :=
  (forall ca, ud !! CONTRACT_ADDRESS = Some ca -> 32 <= len ca <= 44)
  /\ (forall t, ud !! START_TIME = Some t -> timestamp_ok t)
  /\ (forall t, ud !! END_TIME = Some t -> timestamp_ok t).

(** A message update, as far as [main] and the handlers look at it:
    [message.text], if the message has one, and whether the first entity
    of the message is a bot command at offset 0, which Telegram sets on a
    text that begins with a command. *)
Record message := { text : option str; starts_with_command : bool }.

(** [filters.TEXT & ~filters.COMMAND], the filter of every handler of the
    [states] table: the text that reaches the handler, if any.
    [filters.TEXT] asks for a text that is not empty. *)
Definition text_not_command (m : message) : option str :=
  match text m with
  | Some (c :: t) => if starts_with_command m then None else Some (c :: t)
  | _ => None
  end.

(** The texts of the messages that pass the filter. *)
Fixpoint dispatched (messages : list message) : list str :=
  match messages with
  | [] => []
  | m :: messages' =>
    match text_not_command m with
    | Some t => t :: dispatched messages'
    | None => dispatched messages'
    end
  end.

(** A message with the text [t] that is not a command. *)
Definition plain (t : str) : message :=
  {| text := Some t; starts_with_command := false |}.

(** A message with the text [t] that begins with a command. *)
Definition command (t : str) : message :=
  {| text := Some t; starts_with_command := true |}.

Section Conversation.

Variable w : world.
Variables TOP_TRADERS_QUERY TRADES_QUERY : Z.
Variable format_2f : value -> option str.
Variable fuel : nat.

(** The ConversationHandler of [main] on a sequence of messages.  A
    message that passes the filter of the [states] table goes to the
    handler of the current state, and what the handler returns is the next
    state.  A message that does not pass (a command, a message without
    text) matches no handler of the state, and the fallback only takes
    callback queries: the conversation does nothing and stays in its
    state.  After END the conversation is over and the later messages are
    not its business.  Only the conversation is followed here: what the
    command handler that [main] registers beside it answers to its
    command is not in the trace. *)
Fixpoint converse (state : conv_state) (messages : list message)
  : M (option conv_state) :=
  match messages with
  | [] => mret (Some state)
  | m :: messages' =>
    match text_not_command m with
    | None => converse state messages'
    | Some t =>
      next ← states w TOP_TRADERS_QUERY TRADES_QUERY format_2f fuel state t;
      match next with
      | None => mret END
      | Some state' => converse state' messages'
      end
    end
  end.

End Conversation.

(** The title of the top-traders view. *)
Definition top_title (token_name : str) : str :=
  u "📊 *Top Traders for " ++ token_name ++ u "*" ++ nl ++ nl.

(** The entry of the top-traders view for a row, when the row has the
    three columns and the [.2f] format applies to its profit and ROI. *)
Definition top_entry_text (format_2f : value -> option str) (r : row)
  : option str :=
  match get r (u "trader_id"), get r (u "profit_usd"), get r (u "roi") with
  | Some trader_id, Some profit_usd, Some roi =>
    match format_2f profit_usd, format_2f roi with
    | Some profit, Some roi_s =>
      Some (u "👤 `" ++ py_str trader_id ++ u "`" ++ nl
            ++ u "💰 Profit: " ++ profit ++ u " USD" ++ nl
            ++ u "📈 ROI: " ++ roi_s ++ nl
            ++ u "---" ++ nl)
    | _, _ => None
    end
  | _, _, _ => None
  end.

(** The three shapes of what the trades flow shows once it has launched
    its query: one edit of the status message; the inline view and the
    document; the inline view and then the error of the export. *)
Definition trades_outputs (ca : str) (shown : list event) : Prop :=
  (exists n, shown = [EditText n])
  \/ (exists n document,
         shown = [EditText n;
                  ReplyDocument (u "trades_" ++ ca ++ u ".csv") document CAPTION])
  \/ (exists n e, shown = [EditText n; EditText (ErrorNotice e)]).

(** A remote side on which the execution is pending for the first [n]
    status checks and answers [last] from then on; the results hold [rs]. *)
Definition w_after (n : nat) (last : reply (option str)) (rs : list row)
  : world :=
  {| token_reply := fun _ => Some (u "Wrapped SOL");
     execute_reply := fun _ _ => Ok (Some (u "01HX"));
     status_reply := fun k => if (k <? n)%nat
                              then Ok (Some QUERY_STATE_PENDING) else last;
     results_reply := Ok {| result := Some {| rows := Some rs |} |} |}.

(** A remote side that refuses the submission. *)
Definition w_down : world :=
  {| token_reply := fun _ => None;
     execute_reply := fun _ _ => Failed;
     status_reply := fun _ => Failed;
     results_reply := Failed |}.

(** A top-traders row. *)
Definition a_top_trader (trader : str) : row :=
  [(u "trader_id", VStr trader); (u "profit_usd", VInt 10); (u "roi", VInt 2)].

(** The [.2f] format on integers (10 gives 10.00), left undefined on the
    other values. *)
Definition whole_2f (v : value) : option str :=
  match v with
  | VInt z => Some (py_str (VInt z) ++ u ".00")
  | _ => None
  end.

(** Results that hold the rows [rs]. *)
Definition a_results (rs : list row) : results_json :=
  {| result := Some {| rows := Some rs |} |}.

(** A remote side on which the execution completes at the third check. *)
Definition w_slow : world :=
  w_after 2 (Ok (Some QUERY_STATE_COMPLETED)) [a_trade (u "alice")].

(** A run on [w_slow], and a run on a remote side that stays pending. *)
Definition a_run : outcome results_json * st :=
  run_query w_slow 3 7 ∅ 30 5 initial.

Definition a_long_run : outcome results_json * st :=
  run_query w_pending 4 7 ∅ 1 20 initial.

(** The same trade with its columns in another order. *)
Definition a_trade_reordered (trader : str) : row :=
  [(u "amount_usd", VInt 12);
   (u "trader_id", VStr trader);
   (u "trade_date", VStr (u "2025-09-02 10:00:00"));
   (u "token_bought_symbol", VStr (u "SOL"))].

(* ===================================================================== *)
(** ** The poller *)
(* ===================================================================== *)

Section Poller.

Variable w : world.
Variables (execution_id : str) (budget poll_interval : Z).

Lemma poll_budget_spent fuel waited s :
  budget <= waited ->
  poll w fuel execution_id budget poll_interval waited s
  = (Raise TimeoutError, s).
Proof.
  intros H. destruct fuel; simpl;
    (destruct (waited <? budget) eqn:E; [apply Z.ltb_lt in E; lia | reflexivity]).
Qed.

Lemma terminal_false state :
  terminal state = false ->
  bool_decide (state = QUERY_STATE_COMPLETED) = false
  /\ bool_decide (state = QUERY_STATE_FAILED)
     || bool_decide (state = QUERY_STATE_CANCELLED) = false.
Proof.
  unfold terminal. intros H.
  destruct (bool_decide (state = QUERY_STATE_COMPLETED)); [discriminate|].
  split; [reflexivity | exact H].
Qed.

(** One round on a state that is not terminal: a check, a sleep, and the
    loop goes on with more time waited. *)
Lemma poll_round fuel waited s state :
  0 <= poll_interval ->
  waited < budget ->
  status_reply w (polls s) = Ok (Some state) ->
  terminal state = false ->
  poll w (S fuel) execution_id budget poll_interval waited s
  = poll w fuel execution_id budget poll_interval (waited + poll_interval)
      (with_trace s (trace s ++ [GetStatus execution_id; Sleep poll_interval])
                  (S (polls s))).
Proof.
  intros Hpos Hlt Hst Hnt. apply terminal_false in Hnt as [Hc Hf].
  apply Z.ltb_lt in Hlt. apply Z.ltb_ge in Hpos.
  cbn [poll]. rewrite Hlt.
  unfold mbind, M_bind, bind, get_status. rewrite Hst. cbn [of_reply ret getitem].
  rewrite Hc, Hf. unfold sleep. rewrite Hpos.
  unfold emit, with_trace. cbn [trace user_data polls].
  rewrite <- app_assoc. reflexivity.
Qed.

(** On a remote side that never reports a terminal state, the loop makes
    exactly [n] rounds when [n] poll intervals are the first to cover the
    budget, and then raises [TimeoutError]. *)
Lemma poll_never_terminal n : forall fuel waited s,
  (n <= fuel)%nat ->
  0 < poll_interval ->
  (forall k, exists state,
      status_reply w k = Ok (Some state) /\ terminal state = false) ->
  budget <= waited + Z.of_nat n * poll_interval ->
  (0 < n)%nat -> waited + (Z.of_nat n - 1) * poll_interval < budget ->
  poll w fuel execution_id budget poll_interval waited s
  = (Raise TimeoutError,
     with_trace s (trace s ++ rounds n execution_id poll_interval)
                (polls s + n)).
Proof.
  induction n as [|n IH]; intros fuel waited s Hfuel Hpos Hw Hcov Hn Hlast; [lia|].
  destruct fuel as [|fuel]; [lia|].
  destruct (Hw (polls s)) as (state & Hst & Hnt).
  rewrite Nat2Z.inj_succ in Hcov, Hlast.
  assert (0 <= Z.of_nat n * poll_interval) by nia.
  rewrite (poll_round fuel waited s state);
    [| lia | lia | assumption | assumption].
  destruct n as [|n'].
  - rewrite poll_budget_spent by lia.
    unfold with_trace; cbn [trace user_data polls rounds].
    do 2 f_equal. lia.
  - rewrite IH; [| lia | assumption | assumption | lia | lia | lia].
    unfold with_trace; cbn [trace user_data polls].
    rewrite <- app_assoc. cbn [rounds app]. do 2 f_equal. lia.
Qed.

(** With a positive poll interval the loop ends: fuel for as many rounds
    as intervals cover the budget is never used up. *)
Lemma poll_terminates fuel : forall waited s,
  0 < poll_interval ->
  budget <= waited + Z.of_nat fuel * poll_interval ->
  fst (poll w fuel execution_id budget poll_interval waited s) <> OutOfFuel.
Proof.
  induction fuel as [|fuel IH]; intros waited s Hpos Hcov.
  - rewrite poll_budget_spent by lia. cbn [fst]. discriminate.
  - cbn [poll]. destruct (waited <? budget); [|cbn [raise fst]; discriminate].
    unfold mbind, M_bind, bind, get_status.
    destruct (status_reply w (polls s)) as [[state|]|];
      cbn [of_reply ret raise getitem fst]; try discriminate.
    destruct (bool_decide (state = QUERY_STATE_COMPLETED)).
    + unfold get_results, mbind, M_bind, bind, emit.
      destruct (results_reply w); cbn [of_reply ret raise fst]; discriminate.
    + destruct (bool_decide (state = QUERY_STATE_FAILED)
                || bool_decide (state = QUERY_STATE_CANCELLED));
        [cbn [raise fst]; discriminate|].
      unfold sleep. destruct (poll_interval <? 0); [cbn [raise fst]; discriminate|].
      unfold emit. apply IH; [assumption | lia].
Qed.

End Poller.

(** The handlers' runs (30 minutes, 5 seconds) need at most 360 rounds. *)
Lemma run_query_default_terminates w fuel query_id params s :
  (360 <= fuel)%nat ->
  fst (run_query w fuel query_id params 30 5 s) <> OutOfFuel.
Proof.
  intros Hfuel. unfold run_query, execute_query, mbind, M_bind, bind, emit.
  destruct (execute_reply w query_id params) as [[id|]|];
    cbn [of_reply ret raise getitem fst]; try discriminate.
  apply poll_terminates; lia.
Qed.

Lemma run_query_submitted w fuel query_id params max_wait_minutes
      poll_interval id s :
  execute_reply w query_id params = Ok (Some id) ->
  run_query w fuel query_id params max_wait_minutes poll_interval s
  = poll w fuel id (max_wait_minutes * 60) poll_interval 0
      (with_trace s (trace s ++ [Execute query_id params]) (polls s)).
Proof.
  intros H. unfold run_query, execute_query, mbind, M_bind, bind, emit.
  rewrite H. reflexivity.
Qed.

Lemma count_rounds n id p :
  count is_status_check (rounds n id p) = n /\ count is_sleep (rounds n id p) = n.
Proof.
  unfold count. induction n as [|n [IH1 IH2]]; [split; reflexivity|].
  cbn. rewrite IH1, IH2. split; reflexivity.
Qed.

(** C1.  On a status sequence that never yields a terminal state, with
    poll_interval > 0 and a budget (max_wait_minutes * 60 seconds) of three
    poll intervals, [run_query] raises [TimeoutError] after exactly three
    status checks. *)
Theorem run_query_timeout_after_three_checks
    w fuel query_id params max_wait_minutes poll_interval id s :
  0 < poll_interval ->
  max_wait_minutes * 60 = 3 * poll_interval ->
  execute_reply w query_id params = Ok (Some id) ->
  (forall k, exists state,
      status_reply w k = Ok (Some state) /\ terminal state = false) ->
  (3 <= fuel)%nat ->
  exists evs s',
    run_query w fuel query_id params max_wait_minutes poll_interval s
    = (Raise TimeoutError, s')
    /\ trace s' = trace s ++ evs
    /\ count is_status_check evs = 3%nat.
Proof.
  intros Hpos Hbudget Hexec Hnever Hfuel.
  exists (Execute query_id params :: rounds 3 id poll_interval). eexists.
  rewrite (run_query_submitted _ _ _ _ _ _ id) by assumption.
  rewrite (poll_never_terminal w id _ poll_interval 3);
    [| assumption | assumption | assumption | lia | lia | lia].
  split; [reflexivity|]. split.
  - unfold with_trace; cbn [trace]. rewrite <- app_assoc. reflexivity.
  - reflexivity.
Qed.

Lemma run_query_timeout_after_three_checks_witness :
  exists evs s',
    run_query w_pending 3 7 ∅ 1 20 initial = (Raise TimeoutError, s')
    /\ trace s' = trace initial ++ evs
    /\ count is_status_check evs = 3%nat.
Proof.
  apply (run_query_timeout_after_three_checks
           w_pending 3 7 ∅ 1 20 (u "01HX") initial).
  - lia.
  - reflexivity.
  - reflexivity.
  - intros k. exists QUERY_STATE_PENDING. split; [reflexivity | vm_compute; reflexivity].
  - lia.
Defined.

(** C4.  When the first status check of a run answers FAILED or CANCELLED,
    [run_query] raises the query failure at once: one status check and no
    sleep.  That a first check takes place means that the submission went
    through and that the budget is positive. *)
Theorem run_query_failed_on_first_check
    w fuel query_id params max_wait_minutes poll_interval id state s :
  execute_reply w query_id params = Ok (Some id) ->
  0 < max_wait_minutes * 60 ->
  status_reply w (polls s) = Ok (Some state) ->
  state = QUERY_STATE_FAILED \/ state = QUERY_STATE_CANCELLED ->
  (1 <= fuel)%nat ->
  exists evs s',
    run_query w fuel query_id params max_wait_minutes poll_interval s
    = (Raise (QueryFailed state), s')
    /\ trace s' = trace s ++ evs
    /\ count is_status_check evs = 1%nat
    /\ count is_sleep evs = 0%nat.
Proof.
  intros Hexec Hbudget Hst Hstate Hfuel.
  exists [Execute query_id params; GetStatus id]. eexists.
  rewrite (run_query_submitted _ _ _ _ _ _ id) by assumption.
  destruct fuel as [|fuel]; [lia|].
  apply Z.ltb_lt in Hbudget. cbn [poll]. rewrite Hbudget.
  unfold mbind, M_bind, bind, get_status, with_trace. cbn [polls trace user_data].
  rewrite Hst. cbn [of_reply ret getitem].
  assert (bool_decide (state = QUERY_STATE_COMPLETED) = false) as ->.
  { destruct Hstate; subst; vm_compute; reflexivity. }
  assert (bool_decide (state = QUERY_STATE_FAILED)
          || bool_decide (state = QUERY_STATE_CANCELLED) = true) as ->.
  { destruct Hstate; subst; vm_compute; reflexivity. }
  unfold raise. split; [reflexivity|]. cbn [trace]. split.
  - rewrite <- app_assoc. reflexivity.
  - split; reflexivity.
Qed.

Lemma run_query_failed_on_first_check_witness :
  exists evs s',
    run_query w_failed 1 7 ∅ 30 5 initial
    = (Raise (QueryFailed QUERY_STATE_FAILED), s')
    /\ trace s' = trace initial ++ evs
    /\ count is_status_check evs = 1%nat
    /\ count is_sleep evs = 0%nat.
Proof.
  apply (run_query_failed_on_first_check
           w_failed 1 7 ∅ 30 5 (u "01HX") QUERY_STATE_FAILED initial).
  - reflexivity.
  - lia.
  - reflexivity.
  - left; reflexivity.
  - lia.
Defined.

(** C8, as stated, fails when the budget is zero: the loop is not entered
    and no status check is made at all. *)
Lemma run_query_zero_budget_makes_no_check :
  0 < 5 /\ 0 * 60 < 5
  /\ status_reply w_pending 0 = Ok (Some QUERY_STATE_PENDING)
  /\ terminal QUERY_STATE_PENDING = false
  /\ run_query w_pending 1 7 ∅ 0 5 initial
     = (Raise TimeoutError, with_trace initial [Execute 7 ∅] 0)
  /\ count is_status_check [Execute 7 ∅] = 0%nat.
Proof.
  repeat split; try lia; vm_compute; reflexivity.
Qed.

(** C8, amended.  With poll_interval > 0 and a positive budget smaller than
    one poll interval, [run_query] makes exactly one status check: when it
    is not terminal, the run sleeps once and raises [TimeoutError] without
    a second check. *)
Theorem run_query_single_check_below_one_interval
    w fuel query_id params max_wait_minutes poll_interval id state s :
  0 < poll_interval ->
  0 < max_wait_minutes * 60 < poll_interval ->
  execute_reply w query_id params = Ok (Some id) ->
  status_reply w (polls s) = Ok (Some state) ->
  terminal state = false ->
  (1 <= fuel)%nat ->
  exists s',
    run_query w fuel query_id params max_wait_minutes poll_interval s
    = (Raise TimeoutError, s')
    /\ trace s' = trace s ++ [Execute query_id params; GetStatus id;
                              Sleep poll_interval]
    /\ count is_status_check
         [Execute query_id params; GetStatus id; Sleep poll_interval] = 1%nat.
Proof.
  intros Hpos Hbudget Hexec Hst Hnt Hfuel. eexists.
  rewrite (run_query_submitted _ _ _ _ _ _ id) by assumption.
  destruct fuel as [|fuel]; [lia|].
  rewrite (poll_round _ _ _ _ _ _ _ state);
    [| lia | lia | assumption | assumption].
  rewrite poll_budget_spent by lia.
  split; [reflexivity|]. unfold with_trace; cbn [trace]. split.
  - rewrite <- app_assoc. reflexivity.
  - reflexivity.
Qed.

Lemma run_query_single_check_below_one_interval_witness :
  exists s',
    run_query w_pending 1 7 ∅ 1 90 initial = (Raise TimeoutError, s')
    /\ trace s' = trace initial ++ [Execute 7 ∅; GetStatus (u "01HX"); Sleep 90]
    /\ count is_status_check
         [Execute 7 ∅; GetStatus (u "01HX"); Sleep 90] = 1%nat.
Proof.
  apply (run_query_single_check_below_one_interval
           w_pending 1 7 ∅ 1 90 (u "01HX") QUERY_STATE_PENDING initial).
  - lia.
  - lia.
  - reflexivity.
  - reflexivity.
  - vm_compute; reflexivity.
  - lia.
Defined.

(* ===================================================================== *)
(** ** The reader inverts the writer *)
(* ===================================================================== *)

Section Reader.

Lemma special_false c :
  special c = false ->
  (c =? comma)%N = false /\ (c =? dquote)%N = false
  /\ (c =? CR)%N = false /\ (c =? LF)%N = false.
Proof.
  unfold special. intros H.
  repeat (apply orb_false_elim in H as [H ?]). auto.
Qed.

(** A quote is not CR, LF or a comma. *)
Lemma dquote_tests :
  (dquote =? CR)%N = false /\ (dquote =? LF)%N = false
  /\ (dquote =? comma)%N = false /\ (dquote =? dquote)%N = true.
Proof. repeat split. Qed.

Variable recs : list (list str).

Lemma parse_unquoted f : forall fields field rest,
  existsb special f = false ->
  parse InField recs fields field (f ++ rest)
  = parse InField recs fields (rev f ++ field) rest.
Proof.
  induction f as [|c f IH]; intros fields field rest H; [reflexivity|].
  cbn [existsb] in H. apply orb_false_elim in H as [Hc Hf].
  apply special_false in Hc as (Hcomma & _ & Hcr & Hlf).
  cbn [app parse]. rewrite Hcr, Hlf, Hcomma, IH by assumption.
  cbn [rev]. rewrite <- app_assoc. reflexivity.
Qed.

Lemma parse_quoted f : forall fields field rest,
  parse InQuoted recs fields field (escape f ++ dquote :: rest)
  = parse QuoteInQuoted recs fields (rev f ++ field) rest.
Proof.
  induction f as [|c f IH]; intros fields field rest.
  - reflexivity.
  - cbn [escape]. destruct (c =? dquote)%N eqn:E.
    + apply N.eqb_eq in E. subst c.
      cbn [app parse]. change (dquote =? dquote)%N with true. cbn iota.
      rewrite IH. cbn [rev]. rewrite <- app_assoc. reflexivity.
    + cbn [app parse]. rewrite E, IH. cbn [rev]. rewrite <- app_assoc. reflexivity.
Qed.

Lemma parse_field_comma state f fields rest :
  starting state ->
  parse state recs fields [] (write_field f ++ comma :: rest)
  = parse StartField recs (f :: fields) [] rest.
Proof.
  intros Hs. unfold write_field. destruct (existsb special f) eqn:E.
  - replace ((dquote :: escape f ++ [dquote]) ++ comma :: rest)
      with (dquote :: escape f ++ dquote :: comma :: rest)
      by (cbn [app]; rewrite <- app_assoc; reflexivity).
    transitivity (parse InQuoted recs fields [] (escape f ++ dquote :: comma :: rest)).
    { destruct Hs; subst; reflexivity. }
    rewrite parse_quoted. cbn [parse]. change (comma =? dquote)%N with false.
    change (comma =? comma)%N with true. cbn iota.
    rewrite app_nil_r, rev_involutive. reflexivity.
  - destruct f as [|c f].
    + destruct Hs; subst; reflexivity.
    + cbn [existsb] in E. apply orb_false_elim in E as [Hc Hf].
      apply special_false in Hc as (Hcomma & Hq & Hcr & Hlf).
      transitivity (parse InField recs fields [c] (f ++ comma :: rest)).
      { destruct Hs; subst; cbn [app parse]; rewrite Hcr, Hlf, Hq, Hcomma; reflexivity. }
      rewrite parse_unquoted by assumption. cbn [parse].
      change (comma =? CR)%N with false. change (comma =? LF)%N with false.
      change (comma =? comma)%N with true. cbn iota.
      rewrite rev_app_distr, rev_involutive. reflexivity.
Qed.

Lemma parse_field_crlf state f fields rest :
  state = StartField \/ (state = StartRecord /\ f <> []) ->
  parse state recs fields [] (write_field f ++ CR :: LF :: rest)
  = parse StartRecord (rev (f :: fields) :: recs) [] [] rest.
Proof.
  intros Hs. unfold write_field. destruct (existsb special f) eqn:E.
  - replace ((dquote :: escape f ++ [dquote]) ++ CR :: LF :: rest)
      with (dquote :: escape f ++ dquote :: CR :: LF :: rest)
      by (cbn [app]; rewrite <- app_assoc; reflexivity).
    transitivity (parse InQuoted recs fields [] (escape f ++ dquote :: CR :: LF :: rest)).
    { destruct Hs as [-> | [-> _]]; reflexivity. }
    rewrite parse_quoted. cbn [parse].
    change (CR =? dquote)%N with false. change (CR =? comma)%N with false.
    change (CR =? CR)%N with true. change (LF =? LF)%N with true. cbn iota.
    rewrite app_nil_r, rev_involutive. reflexivity.
  - destruct f as [|c f].
    + destruct Hs as [-> | [_ Hne]]; [reflexivity | congruence].
    + cbn [existsb] in E. apply orb_false_elim in E as [Hc Hf].
      apply special_false in Hc as (Hcomma & Hq & Hcr & Hlf).
      transitivity (parse InField recs fields [c] (f ++ CR :: LF :: rest)).
      { destruct Hs as [-> | [-> _]]; cbn [app parse];
          rewrite Hcr, Hlf, Hq, Hcomma; reflexivity. }
      rewrite parse_unquoted by assumption. cbn [parse].
      change (CR =? CR)%N with true. change (LF =? LF)%N with true. cbn iota.
      rewrite rev_app_distr, rev_involutive. reflexivity.
Qed.

End Reader.

Lemma parse_join fs : forall recs f state fields rest,
  state = StartField \/ (state = StartRecord /\ f :: fs <> [[]]) ->
  parse state recs fields [] (join_fields (f :: fs) ++ CR :: LF :: rest)
  = parse StartRecord (rev (rev (f :: fs) ++ fields) :: recs) [] [] rest.
Proof.
  induction fs as [|f2 fs IH]; intros recs f state fields rest Hs.
  - cbn [join_fields]. rewrite parse_field_crlf.
    + reflexivity.
    + destruct Hs as [-> | [-> Hne]]; [left; reflexivity | right].
      split; [reflexivity | congruence].
  - change (join_fields (f :: f2 :: fs))
      with (write_field f ++ comma :: join_fields (f2 :: fs)).
    rewrite <- app_assoc. cbn [app].
    rewrite parse_field_comma by (destruct Hs as [-> | [-> _]]; [right | left]; reflexivity).
    rewrite IH by (left; reflexivity).
    do 3 f_equal. cbn [rev]. rewrite <- !app_assoc. reflexivity.
Qed.

(** Reading one written record gives the record back. *)
Lemma parse_writerow r recs rest :
  parse StartRecord recs [] [] (writerow r ++ rest)
  = parse StartRecord (r :: recs) [] [] rest.
Proof.
  destruct r as [|f fs].
  - reflexivity.
  - assert (Hjoin : f :: fs <> [[]] ->
              parse StartRecord recs [] [] ((join_fields (f :: fs) ++ [CR; LF]) ++ rest)
              = parse StartRecord ((f :: fs) :: recs) [] [] rest).
    { intros Hne. rewrite <- app_assoc. cbn [app].
      rewrite parse_join by (right; split; [reflexivity | assumption]).
      rewrite app_nil_r, rev_involutive. reflexivity. }
    destruct f as [|c f]; [destruct fs as [|f2 fs]|].
    + reflexivity.
    + apply Hjoin. congruence.
    + apply Hjoin. congruence.
Qed.

Lemma parse_records rs : forall recs,
  parse StartRecord recs [] [] (concat (map writerow rs)) = Some (rev recs ++ rs).
Proof.
  induction rs as [|r rs IH]; intros recs.
  - cbn. rewrite app_nil_r. reflexivity.
  - cbn [map concat]. rewrite parse_writerow, IH. cbn [rev].
    rewrite <- app_assoc. reflexivity.
Qed.

(** The reader inverts the writer on every table. *)
Lemma read_written rs : read_csv (concat (map writerow rs)) = Some rs.
Proof. unfold read_csv. rewrite parse_records. reflexivity. Qed.

(* ===================================================================== *)
(** ** The export *)
(* ===================================================================== *)

Lemma fits_dec fieldnames r : {fits fieldnames r} + {~ fits fieldnames r}.
Proof.
  destruct (decide (Forall (fun k => k ∈ fieldnames) (keys r))) as [H|H].
  - left. intros k Hk. rewrite Forall_forall in H. apply H. exact Hk.
  - right. intros Hf. apply H. apply Forall_forall. exact Hf.
Qed.

Lemma dict_to_list_fits fieldnames r :
  fits fieldnames r -> dict_to_list fieldnames r = inr (cells fieldnames r).
Proof.
  unfold fits, dict_to_list. intros H.
  assert (filter (fun k => k ∉ fieldnames) (keys r) = []) as ->; [|reflexivity].
  induction (keys r) as [|k ks IH]; [reflexivity|].
  rewrite filter_cons_False.
  - apply IH. intros k' Hk'. apply H. right. exact Hk'.
  - intros Hk. apply Hk, H. left.
Qed.

Lemma dict_to_list_extra fieldnames r :
  ~ fits fieldnames r ->
  exists k ks, dict_to_list fieldnames r = inl (ValueError (k :: ks)).
Proof.
  unfold fits, dict_to_list. intros H.
  destruct (filter (fun k => k ∉ fieldnames) (keys r)) as [|k ks] eqn:E.
  - exfalso. apply H. intros k Hk.
    destruct (decide (k ∈ fieldnames)) as [|Hn]; [assumption|].
    assert (k ∈ filter (fun k => k ∉ fieldnames) (keys r)) as Hin
        by (apply list_elem_of_filter; split; assumption).
    rewrite E in Hin. inversion Hin.
  - eauto.
Qed.

Lemma writerows_fits fieldnames rows : forall output,
  Forall (fits fieldnames) rows ->
  writerows fieldnames rows output
  = inr (output ++ concat (map writerow (map (cells fieldnames) rows))).
Proof.
  induction rows as [|r rows IH]; intros output H.
  - cbn. rewrite app_nil_r. reflexivity.
  - inversion H as [|? ? Hr Hrows]; subst.
    cbn [writerows]. rewrite dict_to_list_fits by assumption.
    rewrite IH by assumption. cbn [map concat]. rewrite <- app_assoc. reflexivity.
Qed.

Lemma writerows_extra fieldnames rows : forall output,
  Exists (fun r => ~ fits fieldnames r) rows ->
  exists k ks, writerows fieldnames rows output = inl (ValueError (k :: ks)).
Proof.
  induction rows as [|r rows IH]; intros output H.
  - inversion H.
  - cbn [writerows]. destruct (fits_dec fieldnames r) as [Hr|Hr].
    + rewrite dict_to_list_fits by assumption. apply IH.
      inversion H; subst; [contradiction | assumption].
    + destruct (dict_to_list_extra _ _ Hr) as (k & ks & ->). eauto.
Qed.

Lemma fits_own_keys r : fits (keys r) r.
Proof. intros k Hk. exact Hk. Qed.

(** The export of rows that fit the header of the first one: the header
    line, then one record per row. *)
Lemma export_csv_fits first rest :
  Forall (fits (keys first)) rest ->
  export_csv (first :: rest)
  = inr (concat (map writerow
                     (keys first :: map (cells (keys first)) (first :: rest)))).
Proof.
  intros H. unfold export_csv.
  rewrite writerows_fits by (constructor; [apply fits_own_keys | assumption]).
  reflexivity.
Qed.

Lemma export_csv_extra first rest :
  Exists (fun r => ~ fits (keys first) r) rest ->
  exists k ks, export_csv (first :: rest) = inl (ValueError (k :: ks)).
Proof.
  intros H. unfold export_csv. apply writerows_extra. right. exact H.
Qed.

Lemma encodable_app a b :
  encodable (a ++ b) = encodable a && encodable b.
Proof. unfold encodable. rewrite existsb_app, negb_orb. reflexivity. Qed.

Lemma encodable_escape f : encodable f = true -> encodable (escape f) = true.
Proof.
  unfold encodable. induction f as [|c f IH]; [reflexivity|].
  cbn [escape existsb]. rewrite negb_orb. intros [Hc Hf]%andb_true_iff.
  destruct (c =? dquote)%N; cbn [existsb]; rewrite ?negb_orb, ?Hc, (IH Hf);
    reflexivity.
Qed.

Lemma encodable_write_field f :
  encodable f = true -> encodable (write_field f) = true.
Proof.
  intros H. unfold write_field. destruct (existsb special f); [|exact H].
  change (dquote :: escape f ++ [dquote])
    with ([dquote] ++ escape f ++ [dquote]).
  rewrite !encodable_app, (encodable_escape f H). reflexivity.
Qed.

Lemma encodable_join_fields fs :
  forallb encodable fs = true -> encodable (join_fields fs) = true.
Proof.
  induction fs as [|f fs IH]; [reflexivity|].
  cbn [forallb]. intros [Hf Hfs]%andb_true_iff.
  destruct fs as [|g fs']; [apply encodable_write_field, Hf|].
  change (join_fields (f :: g :: fs'))
    with (write_field f ++ [comma] ++ join_fields (g :: fs')).
  rewrite !encodable_app, (encodable_write_field f Hf), (IH Hfs). reflexivity.
Qed.

Lemma encodable_writerow fs :
  forallb encodable fs = true -> encodable (writerow fs) = true.
Proof.
  intros H. unfold writerow. rewrite encodable_app.
  apply andb_true_iff. split; [|reflexivity].
  destruct fs as [|[|c f] [|g fs]]; try reflexivity;
    apply encodable_join_fields, H.
Qed.

Lemma encodable_records rs :
  forallb (forallb encodable) rs = true ->
  encodable (concat (map writerow rs)) = true.
Proof.
  induction rs as [|r rs IH]; [reflexivity|].
  cbn [forallb map concat]. intros [Hr Hrs]%andb_true_iff.
  rewrite encodable_app, (encodable_writerow r Hr), (IH Hrs). reflexivity.
Qed.

Lemma encodable_get r k v :
  encodable_row r = true -> get r k = Some v -> encodable (cell v) = true.
Proof.
  unfold encodable_row. induction r as [|[k' v'] r IH]; [discriminate|].
  cbn [forallb get fst snd]. intros [[_ Hv]%andb_true_iff Hr]%andb_true_iff.
  destruct (bool_decide (k' = k)); [|apply IH, Hr].
  intros E. injection E as <-. exact Hv.
Qed.

Lemma encodable_cells fieldnames r :
  encodable_row r = true -> forallb encodable (cells fieldnames r) = true.
Proof.
  intros Hr. unfold cells. induction fieldnames as [|k ks IH]; [reflexivity|].
  cbn [map forallb]. rewrite IH, andb_true_r.
  destruct (get r k) as [v|] eqn:E; [|reflexivity].
  exact (encodable_get r k v Hr E).
Qed.

Lemma encodable_keys r :
  encodable_row r = true -> forallb encodable (keys r) = true.
Proof.
  unfold encodable_row, keys. induction r as [|[k v] r IH]; [reflexivity|].
  cbn [forallb map fst]. intros [[Hk _]%andb_true_iff Hr]%andb_true_iff.
  rewrite Hk, (IH Hr). reflexivity.
Qed.

(** The export of rows without a lone surrogate has none. *)
Lemma encodable_export fieldnames first rows :
  encodable_row first = true ->
  forallb encodable_row rows = true ->
  encode_utf8 (concat (map writerow
                         (keys first :: map (cells fieldnames) rows)))
  = inr (concat (map writerow (keys first :: map (cells fieldnames) rows))).
Proof.
  intros Hfirst Hrows. unfold encode_utf8.
  assert (encodable (concat (map writerow
                               (keys first :: map (cells fieldnames) rows)))
          = true) as H.
  { apply encodable_records. cbn [forallb].
    rewrite (encodable_keys first Hfirst). cbn [andb].
    induction rows as [|r rows IH]; [reflexivity|].
    cbn [forallb map] in *. apply andb_true_iff in Hrows as [Hr Hrows].
    rewrite (encodable_cells fieldnames r Hr), (IH Hrows). reflexivity. }
  unfold encodable in H. apply negb_true_iff in H. rewrite H. reflexivity.
Qed.

(** C7.  Round trip: for a non-empty row sequence in which every row has
    the column set of the first row, the export succeeds, and reading the
    exported text back gives a header equal to the columns of the first
    row and as many records as there are rows. *)
Theorem export_then_read_keeps_columns_and_count rows first rest :
  rows = first :: rest ->
  Forall (same_columns first) rest ->
  exists document header records,
    export_csv rows = inr document
    /\ read_csv document = Some (header :: records)
    /\ header = keys first
    /\ length records = length rows.
Proof.
  intros -> H.
  assert (Forall (fits (keys first)) rest) as Hfits.
  { eapply Forall_impl; [exact H|]. intros r Hr k Hk. apply Hr. exact Hk. }
  eexists. exists (keys first), (map (cells (keys first)) (first :: rest)).
  split; [apply export_csv_fits; assumption|].
  split; [apply read_written|].
  split; [reflexivity|]. rewrite length_map. reflexivity.
Qed.

Lemma export_then_read_keeps_columns_and_count_witness :
  exists document header records,
    export_csv [a_trade (u "alice"); a_trade (u "bob, jr")] = inr document
    /\ read_csv document = Some (header :: records)
    /\ header = keys (a_trade (u "alice"))
    /\ length records = length [a_trade (u "alice"); a_trade (u "bob, jr")].
Proof.
  apply (export_then_read_keeps_columns_and_count
           [a_trade (u "alice"); a_trade (u "bob, jr")]
           (a_trade (u "alice")) [a_trade (u "bob, jr")]).
  - reflexivity.
  - constructor; [|constructor]. intros k. reflexivity.
Defined.

(* ===================================================================== *)
(** ** The flows *)
(* ===================================================================== *)

(** ** The poller shows nothing *)

Lemma quiet_ret {A} (a : A) : quiet (mret a).
Proof.
  intros s o s' H. injection H as <- <-. exists [].
  rewrite app_nil_r. auto.
Qed.

Lemma quiet_raise {A} e : quiet (@raise A e).
Proof.
  intros s o s' H. injection H as <- <-. exists [].
  rewrite app_nil_r. auto.
Qed.

Lemma quiet_out_of_fuel {A} : quiet (@out_of_fuel A).
Proof.
  intros s o s' H. injection H as <- <-. exists [].
  rewrite app_nil_r. auto.
Qed.

Lemma quiet_bind {A B} (m : M A) (k : A -> M B) :
  quiet m -> (forall a, quiet (k a)) -> quiet (m ≫= k).
Proof.
  intros Hm Hk s o s' H. unfold mbind, M_bind, bind in H.
  destruct (m s) as [[a|e|] s1] eqn:E.
  - destruct (Hm _ _ _ E) as (evs1 & Ht1 & Ho1 & Hu1).
    destruct (Hk a _ _ _ H) as (evs2 & Ht2 & Ho2 & Hu2).
    exists (evs1 ++ evs2). rewrite Ht2, Ht1, <- app_assoc.
    unfold outputs in *. rewrite List.filter_app, Ho1, Ho2. split; [reflexivity|].
    split; [reflexivity | congruence].
  - injection H as <- <-. exact (Hm _ _ _ E).
  - injection H as <- <-. exact (Hm _ _ _ E).
Qed.

Lemma quiet_emit e : is_output e = false -> quiet (emit e).
Proof.
  intros He s o s' H. injection H as <- <-. exists [e].
  unfold outputs. cbn. rewrite He. auto.
Qed.

Lemma quiet_of_reply {A} (r : reply A) : quiet (of_reply r).
Proof. destruct r; [apply quiet_ret | apply quiet_raise]. Qed.

Lemma quiet_getitem {A} k (o : option A) : quiet (getitem k o).
Proof. destruct o; [apply quiet_ret | apply quiet_raise]. Qed.

Section Quiet.

Variable w : world.

Lemma quiet_get_status id : quiet (get_status w id).
Proof.
  intros s o s' H. unfold get_status in H.
  destruct (quiet_of_reply _ _ _ _ H) as (evs & Ht & Ho & Hu).
  cbn [trace user_data] in *. exists (GetStatus id :: evs).
  rewrite Ht, <- app_assoc. auto.
Qed.

Lemma quiet_get_results id : quiet (get_results w id).
Proof.
  apply quiet_bind; [apply quiet_emit; reflexivity | intros; apply quiet_of_reply].
Qed.

Lemma quiet_sleep seconds : quiet (sleep seconds).
Proof.
  unfold sleep. destruct (seconds <? 0);
    [apply quiet_raise | apply quiet_emit; reflexivity].
Qed.

Lemma quiet_poll fuel : forall id budget poll_interval waited,
  quiet (poll w fuel id budget poll_interval waited).
Proof.
  induction fuel as [|fuel IH]; intros id budget poll_interval waited;
    cbn [poll]; destruct (waited <? budget);
    try apply quiet_raise; try apply quiet_out_of_fuel.
  apply quiet_bind; [apply quiet_get_status | intros status].
  apply quiet_bind; [apply quiet_getitem | intros state].
  destruct (bool_decide (state = QUERY_STATE_COMPLETED)); [apply quiet_get_results|].
  destruct (bool_decide (state = QUERY_STATE_FAILED)
            || bool_decide (state = QUERY_STATE_CANCELLED)); [apply quiet_raise|].
  apply quiet_bind; [apply quiet_sleep | intros; apply IH].
Qed.

Lemma quiet_run_query fuel query_id params max_wait_minutes poll_interval :
  quiet (run_query w fuel query_id params max_wait_minutes poll_interval).
Proof.
  apply quiet_bind; [|intros exec_response].
  - apply quiet_bind; [apply quiet_emit; reflexivity | intros; apply quiet_of_reply].
  - apply quiet_bind; [apply quiet_getitem | intros; apply quiet_poll].
Qed.

End Quiet.

(** ** The flows, once the results are fetched *)

Section Flows.

Variable w : world.
Variables TOP_TRADERS_QUERY TRADES_QUERY : Z.
Variable format_2f : value -> option str.
Variable fuel : nat.

Lemma valid_ca_launches_top text s :
  valid_ca (strip text) = true ->
  handle_ca_top w TOP_TRADERS_QUERY format_2f fuel text s
  = try_except
      (run_query w fuel TOP_TRADERS_QUERY {[ u "CA" := strip text ]} 30 5
         ≫= top_view format_2f (default UNKNOWN_TOKEN (token_reply w (strip text))))
      report_error (top_launch w (strip text) s).
Proof.
  intros Hv. unfold handle_ca_top. rewrite Hv. cbn [negb].
  unfold get_token_name, top_launch, with_trace, mbind, M_bind, bind, emit, mret, M_ret, ret.
  cbn [trace user_data polls]. rewrite <- app_assoc. reflexivity.
Qed.

Lemma valid_end_launches_trades text s ca start_time :
  DATETIME_PATTERN_match (strip text) = true ->
  user_data s !! CONTRACT_ADDRESS = Some ca ->
  user_data s !! START_TIME = Some start_time ->
  fetch_trades w TRADES_QUERY fuel text s
  = try_except
      (run_query w fuel TRADES_QUERY (trades_params ca start_time (strip text)) 30 5
         ≫= trades_view ca)
      report_error (trades_launch ca start_time (strip text) s).
Proof.
  intros Hv Hca Hstart. unfold fetch_trades. rewrite Hv. cbn [negb].
  unfold mbind, M_bind, bind, set_user_data, get_user_data.
  cbn [trace user_data polls].
  rewrite lookup_insert_ne by (vm_compute; discriminate). rewrite Hca.
  cbn [user_data].
  rewrite lookup_insert_ne by (vm_compute; discriminate). rewrite Hstart.
  reflexivity.
Qed.

End Flows.


Lemma outputs_app tr1 tr2 : outputs (tr1 ++ tr2) = outputs tr1 ++ outputs tr2.
Proof. apply List.filter_app. Qed.

Lemma count_document_outputs tr :
  count is_document tr = count is_document (outputs tr).
Proof.
  unfold count, outputs. induction tr as [|e tr IH]; [reflexivity|].
  destruct e; cbn; try rewrite IH; try reflexivity; exact IH.
Qed.

Section Fetched.

Variable w : world.
Variables TOP_TRADERS_QUERY TRADES_QUERY : Z.
Variable format_2f : value -> option str.
Variable fuel : nat.

(** What [fetch_trades] has done when the poller returned [results] in
    state [s2] and the view of the results traced [evs]. *)
Lemma trades_fetched text s ca start_time results s2 o evs :
  DATETIME_PATTERN_match (strip text) = true ->
  user_data s !! CONTRACT_ADDRESS = Some ca ->
  user_data s !! START_TIME = Some start_time ->
  run_query w fuel TRADES_QUERY (trades_params ca start_time (strip text)) 30 5
    (trades_launch ca start_time (strip text) s) = (Ret results, s2) ->
  try_except (trades_view ca results) report_error s2
  = (o, with_trace s2 (trace s2 ++ evs) (polls s2)) ->
  exists evs0,
    fetch_trades w TRADES_QUERY fuel text s
    = (o, with_trace s2 (trace s ++ evs0 ++ evs) (polls s2))
    /\ outputs (evs0 ++ evs) = outputs evs.
Proof.
  intros Hv Hca Hstart Hrun Hview.
  rewrite (valid_end_launches_trades _ _ _ _ _ ca start_time) by assumption.
  destruct (quiet_run_query _ _ _ _ _ _ _ _ _ Hrun) as (evs0 & Ht & Ho & _).
  cbn [trace trades_launch] in Ht.
  exists (ReplyText (trades_status ca start_time (strip text)) :: evs0). split.
  - unfold try_except, mbind, M_bind, bind in *. rewrite Hrun, Hview.
    unfold with_trace. rewrite Ht, <- !app_assoc. reflexivity.
  - rewrite outputs_app. change (outputs (ReplyText _ :: evs0)) with (outputs evs0).
    rewrite Ho. reflexivity.
Qed.

Lemma top_fetched text s results s2 o evs :
  valid_ca (strip text) = true ->
  run_query w fuel TOP_TRADERS_QUERY {[ u "CA" := strip text ]} 30 5
    (top_launch w (strip text) s) = (Ret results, s2) ->
  try_except
    (top_view format_2f (default UNKNOWN_TOKEN (token_reply w (strip text))) results)
    report_error s2
  = (o, with_trace s2 (trace s2 ++ evs) (polls s2)) ->
  exists evs0,
    handle_ca_top w TOP_TRADERS_QUERY format_2f fuel text s
    = (o, with_trace s2 (trace s ++ evs0 ++ evs) (polls s2))
    /\ outputs (evs0 ++ evs) = outputs evs.
Proof.
  intros Hv Hrun Hview.
  rewrite valid_ca_launches_top by assumption.
  destruct (quiet_run_query _ _ _ _ _ _ _ _ _ Hrun) as (evs0 & Ht & Ho & _).
  cbn [trace top_launch with_trace] in Ht.
  exists ([TokenLookup (strip text);
           ReplyText (top_status (default UNKNOWN_TOKEN (token_reply w (strip text))))]
          ++ evs0). split.
  - unfold try_except, mbind, M_bind, bind in *. rewrite Hrun, Hview.
    unfold with_trace. rewrite Ht, <- !app_assoc. reflexivity.
  - rewrite !outputs_app. rewrite Ho. reflexivity.
Qed.

(** C5.  In both flows, when the fetched row sequence is empty the only
    output is the "no results" notice, and no document is sent: the flow
    ends there. *)
Theorem empty_results_show_only_notice text s results s2 :
  rows_of results = [] ->
  (valid_ca (strip text) = true ->
   run_query w fuel TOP_TRADERS_QUERY {[ u "CA" := strip text ]} 30 5
     (top_launch w (strip text) s) = (Ret results, s2) ->
   exists evs,
     handle_ca_top w TOP_TRADERS_QUERY format_2f fuel text s
     = (Ret END, with_trace s2 (trace s ++ evs) (polls s2))
     /\ outputs evs = [EditText (Text NO_RESULTS)]
     /\ count is_document evs = 0%nat)
  /\ (forall ca start_time,
      DATETIME_PATTERN_match (strip text) = true ->
      user_data s !! CONTRACT_ADDRESS = Some ca ->
      user_data s !! START_TIME = Some start_time ->
      run_query w fuel TRADES_QUERY (trades_params ca start_time (strip text)) 30 5
        (trades_launch ca start_time (strip text) s) = (Ret results, s2) ->
      exists evs,
        fetch_trades w TRADES_QUERY fuel text s
        = (Ret END, with_trace s2 (trace s ++ evs) (polls s2))
        /\ outputs evs = [EditText (Text NO_RESULTS)]
        /\ count is_document evs = 0%nat).
Proof.
  intros Hrows. split.
  - intros Hv Hrun.
    destruct (top_fetched text s results s2 (Ret END) [EditText (Text NO_RESULTS)]
                Hv Hrun) as (evs0 & -> & Ho).
    { unfold try_except, top_view. rewrite Hrows. reflexivity. }
    eexists. split; [reflexivity|]. split; [exact Ho|].
    rewrite count_document_outputs, Ho. reflexivity.
  - intros ca start_time Hv Hca Hstart Hrun.
    destruct (trades_fetched text s ca start_time results s2 (Ret END)
                [EditText (Text NO_RESULTS)] Hv Hca Hstart Hrun) as (evs0 & -> & Ho).
    { unfold try_except, trades_view. rewrite Hrows. reflexivity. }
    eexists. split; [reflexivity|]. split; [exact Ho|].
    rewrite count_document_outputs, Ho. reflexivity.
Qed.

Lemma trades_view_exported ca results s2 first rest :
  rows_of results = first :: rest ->
  Forall (fits (keys first)) rest ->
  forallb encodable_row (first :: rest) = true ->
  try_except (trades_view ca results) report_error s2
  = (Ret END,
     with_trace s2
       (trace s2
        ++ [EditText (inline_view (trades_message (first :: rest)));
            ReplyDocument (u "trades_" ++ ca ++ u ".csv")
              (concat (map writerow
                         (keys first
                          :: map (cells (keys first)) (first :: rest))))
              CAPTION])
       (polls s2)).
Proof.
  intros Hrows Hfits Henc. unfold try_except, trades_view. rewrite Hrows.
  unfold mbind, M_bind, bind, emit. rewrite export_csv_fits by assumption.
  cbn [of_sum mret M_ret ret trace user_data polls].
  rewrite encodable_export;
    [| cbn [forallb] in Henc; apply andb_true_iff in Henc as [H _]; exact H
     | exact Henc].
  cbn [of_sum mret M_ret ret trace user_data polls].
  unfold with_trace. rewrite <- app_assoc. reflexivity.
Qed.


Lemma trades_view_refused ca results s2 first rest :
  rows_of results = first :: rest ->
  Exists (fun r => ~ fits (keys first) r) rest ->
  exists k ks,
    try_except (trades_view ca results) report_error s2
    = (Ret END,
       with_trace s2
         (trace s2
          ++ [EditText (inline_view (trades_message (first :: rest)));
              EditText (ErrorNotice (ValueError (k :: ks)))])
         (polls s2)).
Proof.
  intros Hrows Hextra. unfold try_except, trades_view. rewrite Hrows.
  destruct (export_csv_extra first rest Hextra) as (k & ks & Hexp).
  exists k, ks.
  unfold mbind, M_bind, bind, emit. rewrite Hexp.
  cbn [of_sum raise report_error trace user_data polls].
  unfold report_error, mbind, M_bind, bind, emit, with_trace.
  cbn [trace user_data polls]. rewrite <- app_assoc. reflexivity.
Qed.

End Fetched.


Section Trades.

Variable w : world.
Variable TRADES_QUERY : Z.
Variable fuel : nat.

(** C6, amended.  In the trades flow, for a non-empty row sequence in
    which no row has a key outside those of the first row, no key or cell
    holds a lone surrogate, and the inline view has more than 4096
    characters, the inline view is replaced by the "results too large"
    notice, and the document still holds the header and one record for
    every row of the sequence. *)
Theorem oversized_view_exports_every_row
    text s ca start_time results s2 first rest :
  DATETIME_PATTERN_match (strip text) = true ->
  user_data s !! CONTRACT_ADDRESS = Some ca ->
  user_data s !! START_TIME = Some start_time ->
  run_query w fuel TRADES_QUERY (trades_params ca start_time (strip text)) 30 5
    (trades_launch ca start_time (strip text) s) = (Ret results, s2) ->
  rows_of results = first :: rest ->
  Forall (fits (keys first)) rest ->
  forallb encodable_row (first :: rest) = true ->
  4096 < len (trades_message (first :: rest)) ->
  exists evs document,
    fetch_trades w TRADES_QUERY fuel text s
    = (Ret END, with_trace s2 (trace s ++ evs) (polls s2))
    /\ outputs evs
       = [EditText (Text TOO_LARGE);
          ReplyDocument (u "trades_" ++ ca ++ u ".csv") document CAPTION]
    /\ read_csv document
       = Some (keys first :: map (cells (keys first)) (first :: rest)).
Proof.
  intros Hv Hca Hstart Hrun Hrows Hfits Henc Hlong.
  destruct (trades_fetched w TRADES_QUERY fuel text s ca start_time results s2
              (Ret END) _ Hv Hca Hstart Hrun
              (trades_view_exported ca results s2 first rest Hrows Hfits Henc))
    as (evs0 & -> & Ho).
  eexists. eexists. split; [reflexivity|]. split.
  - rewrite Ho. unfold inline_view.
    destruct (len (trades_message (first :: rest)) <=? 4096) eqn:E;
      [apply Z.leb_le in E; lia | reflexivity].
  - apply read_written.
Qed.

(** C9, amended.  When some row has a key that is not among the keys of
    the first row, the export is refused: the writer raises, the error is
    shown in the status message and no document is sent. *)
Theorem extra_column_refuses_export
    text s ca start_time results s2 first rest :
  DATETIME_PATTERN_match (strip text) = true ->
  user_data s !! CONTRACT_ADDRESS = Some ca ->
  user_data s !! START_TIME = Some start_time ->
  run_query w fuel TRADES_QUERY (trades_params ca start_time (strip text)) 30 5
    (trades_launch ca start_time (strip text) s) = (Ret results, s2) ->
  rows_of results = first :: rest ->
  Exists (fun r => ~ fits (keys first) r) rest ->
  exists evs k ks,
    fetch_trades w TRADES_QUERY fuel text s
    = (Ret END, with_trace s2 (trace s ++ evs) (polls s2))
    /\ outputs evs
       = [EditText (inline_view (trades_message (first :: rest)));
          EditText (ErrorNotice (ValueError (k :: ks)))]
    /\ count is_document evs = 0%nat.
Proof.
  intros Hv Hca Hstart Hrun Hrows Hextra.
  destruct (trades_view_refused ca results s2 first rest Hrows Hextra)
    as (k & ks & Hview).
  destruct (trades_fetched w TRADES_QUERY fuel text s ca start_time results s2
              (Ret END) _ Hv Hca Hstart Hrun Hview) as (evs0 & -> & Ho).
  eexists. exists k, ks. split; [reflexivity|]. split; [exact Ho|].
  rewrite count_document_outputs, Ho. reflexivity.
Qed.

End Trades.

Lemma oversized_view_exports_every_row_witness :
  exists evs document,
    fetch_trades (w_done [a_long_trade; a_trade (u "bob")]) 2 1 an_end s_ready
    = (Ret END,
       with_trace (s_fetched [a_long_trade; a_trade (u "bob")])
         (trace s_ready ++ evs)
         (polls (s_fetched [a_long_trade; a_trade (u "bob")])))
    /\ outputs evs
       = [EditText (Text TOO_LARGE);
          ReplyDocument (u "trades_" ++ a_ca ++ u ".csv") document CAPTION]
    /\ read_csv document
       = Some (keys a_long_trade
               :: map (cells (keys a_long_trade)) [a_long_trade; a_trade (u "bob")]).
Proof.
  apply (oversized_view_exports_every_row
           (w_done [a_long_trade; a_trade (u "bob")]) 2 1 an_end s_ready
           a_ca a_start
           {| result := Some {| rows := Some [a_long_trade; a_trade (u "bob")] |} |}
           (s_fetched [a_long_trade; a_trade (u "bob")]) a_long_trade [a_trade (u "bob")]).
  - vm_compute; reflexivity.
  - vm_compute; reflexivity.
  - vm_compute; reflexivity.
  - vm_compute; reflexivity.
  - reflexivity.
  - constructor; [|constructor]. intros k Hk. exact Hk.
  - vm_compute; reflexivity.
  - vm_compute; reflexivity.
Defined.

Lemma extra_column_refuses_export_witness :
  exists evs k ks,
    fetch_trades (w_done [a_trade (u "alice"); a_trade_with_fee]) 2 1 an_end s_ready
    = (Ret END,
       with_trace (s_fetched [a_trade (u "alice"); a_trade_with_fee])
         (trace s_ready ++ evs)
         (polls (s_fetched [a_trade (u "alice"); a_trade_with_fee])))
    /\ outputs evs
       = [EditText (inline_view
                      (trades_message [a_trade (u "alice"); a_trade_with_fee]));
          EditText (ErrorNotice (ValueError (k :: ks)))]
    /\ count is_document evs = 0%nat.
Proof.
  apply (extra_column_refuses_export
           (w_done [a_trade (u "alice"); a_trade_with_fee]) 2 1 an_end s_ready
           a_ca a_start
           {| result := Some {| rows := Some [a_trade (u "alice"); a_trade_with_fee] |} |}
           (s_fetched [a_trade (u "alice"); a_trade_with_fee]) (a_trade (u "alice")) [a_trade_with_fee]).
  - vm_compute; reflexivity.
  - vm_compute; reflexivity.
  - vm_compute; reflexivity.
  - vm_compute; reflexivity.
  - reflexivity.
  - left. intros Hfit.
    assert (u "fee" ∈ keys (a_trade (u "alice"))) as Hin.
    { apply Hfit. apply list_elem_of_In. vm_compute. tauto. }
    apply list_elem_of_In in Hin. vm_compute in Hin.
    repeat (destruct Hin as [Hin|Hin]; [discriminate Hin|]). exact Hin.
Defined.

Lemma empty_results_show_only_notice_witness :
  (exists evs,
     handle_ca_top (w_done []) 1 (fun _ => None) 1 a_ca initial
     = (Ret END,
        with_trace (s_fetched_top []) (trace initial ++ evs)
                   (polls (s_fetched_top [])))
     /\ outputs evs = [EditText (Text NO_RESULTS)]
     /\ count is_document evs = 0%nat)
  /\ (exists evs,
       fetch_trades (w_done []) 2 1 an_end s_ready
       = (Ret END,
          with_trace (s_fetched []) (trace s_ready ++ evs) (polls (s_fetched [])))
       /\ outputs evs = [EditText (Text NO_RESULTS)]
       /\ count is_document evs = 0%nat).
Proof.
  split.
  - apply (proj1 (empty_results_show_only_notice
                    (w_done []) 1 2 (fun _ => None) 1 a_ca initial
                    {| result := Some {| rows := Some [] |} |}
                    (s_fetched_top []) eq_refl));
      vm_compute; reflexivity.
  - apply (proj2 (empty_results_show_only_notice
                    (w_done []) 1 2 (fun _ => None) 1 an_end s_ready
                    {| result := Some {| rows := Some [] |} |}
                    (s_fetched []) eq_refl) a_ca a_start);
      vm_compute; reflexivity.
Defined.

(** C6, as stated, fails in three ways.  The limit is on characters, not
    on bytes: the view of [twenty_trades] takes more than 4096 bytes and is
    shown inline.  Rows are not exported when one of them has a column
    the first row lacks: the view is too large, the notice is shown, and
    the export ends in an error instead of a document.  And rows are not
    exported when a cell holds a lone surrogate: the notice is shown, and
    the encoding of the export ends in an error instead of a document. *)
Lemma oversized_view_without_notice_or_export :
  (4096 < utf8_len (trades_message twenty_trades)
   /\ hd_error (outputs (trace (snd (fetch_trades (w_done twenty_trades) 2 1
                                       an_end s_ready))))
      = Some (EditText (Text (trades_message twenty_trades))))
  /\ (4096 < len (trades_message [a_long_trade; a_trade_with_fee])
      /\ outputs (trace (snd (fetch_trades
                                (w_done [a_long_trade; a_trade_with_fee]) 2 1
                                an_end s_ready)))
         = [EditText (Text TOO_LARGE);
            EditText (ErrorNotice (ValueError [u "fee"]))])
  /\ (4096 < len (trades_message [a_long_trade; a_surrogate_trade])
      /\ outputs (trace (snd (fetch_trades
                                (w_done [a_long_trade; a_surrogate_trade]) 2 1
                                an_end s_ready)))
         = [EditText (Text TOO_LARGE);
            EditText (ErrorNotice UnicodeEncodeError)]).
Proof.
  repeat split; vm_compute; reflexivity.
Qed.

(** C9, as stated, fails for a row that only lacks columns of the first
    row: the export goes through, and the document shows the short row
    under the header of the first row with empty cells. *)
Lemma short_row_is_exported_with_blanks :
  ~ same_columns (a_trade (u "alice")) a_short_trade
  /\ exists document,
      outputs (trace (snd (fetch_trades
                             (w_done [a_trade (u "alice"); a_short_trade]) 2 1
                             an_end s_ready)))
      = [EditText (Text (trades_message [a_trade (u "alice"); a_short_trade]));
         ReplyDocument (u "trades_" ++ a_ca ++ u ".csv") document CAPTION]
      /\ read_csv document
         = Some [keys (a_trade (u "alice"));
                 [u "2025-09-02 10:00:00"; u "alice"; u "SOL"; u "12"];
                 [[]; u "bob"; []; []]].
Proof.
  split.
  - intros H. destruct (H (u "trade_date")) as [_ Hin].
    assert (u "trade_date" ∈ keys a_short_trade) as Hk.
    { apply Hin, list_elem_of_In. vm_compute. tauto. }
    apply list_elem_of_In in Hk. vm_compute in Hk.
    destruct Hk as [Hk|Hk]; [discriminate Hk | exact Hk].
  - eexists. split; vm_compute; reflexivity.
Qed.

(* ===================================================================== *)
(** ** Validation of the inputs *)
(* ===================================================================== *)

Section Steps.

Variable w : world.
Variables TOP_TRADERS_QUERY TRADES_QUERY : Z.
Variable format_2f : value -> option str.
Variable fuel : nat.

Local Abbreviation step :=
  (states w TOP_TRADERS_QUERY TRADES_QUERY format_2f fuel).

Lemma valid_ca_false ca : ~ (32 <= len ca <= 44) -> valid_ca ca = false.
Proof.
  unfold valid_ca. intros H.
  destruct (32 <=? len ca) eqn:E1; [|reflexivity].
  destruct (len ca <=? 44) eqn:E2; [|reflexivity].
  apply Z.leb_le in E1, E2. lia.
Qed.

(** C2.  In both entry steps, an address whose stripped length is outside
    [32,44] ends the flow at once: the only event is the validation
    notice, so the Query Client is not called, and the state is END. *)
Theorem invalid_address_ends_flow state text s :
  state = ASK_CA_TOP \/ state = ASK_CA_TRADES ->
  ~ (32 <= len (strip text) <= 44) ->
  step state text s
  = (Ret END, with_trace s (trace s ++ [ReplyText INVALID_CA]) (polls s))
  /\ count is_query_client [ReplyText INVALID_CA] = 0%nat.
Proof.
  intros Hstate Hlen. apply valid_ca_false in Hlen.
  split; [|reflexivity].
  destruct Hstate; subst state; cbn [states];
    unfold handle_ca_top, ask_start; rewrite Hlen; reflexivity.
Qed.

Lemma invalid_timestamp_step state text s :
  state = ASK_START \/ state = ASK_END ->
  DATETIME_PATTERN_match (strip text) = false ->
  step state text s
  = (Ret (Some state),
     with_trace s (trace s ++ [ReplyText INVALID_FORMAT]) (polls s)).
Proof.
  intros Hstate Hbad.
  destruct Hstate; subst state; cbn [states];
    unfold ask_end, fetch_trades; rewrite Hbad; reflexivity.
Qed.

(** C3, amended.  A timestamp that, once stripped of surrounding white
    space, does not match the pattern makes the step re-prompt and stay in
    the state that awaits it. *)
Theorem invalid_timestamp_reprompts state text s :
  state = ASK_START \/ state = ASK_END ->
  DATETIME_PATTERN_match (strip text) = false ->
  step state text s
  = (Ret (Some state),
     with_trace s (trace s ++ [ReplyText INVALID_FORMAT]) (polls s)).
Proof. apply invalid_timestamp_step. Qed.

(** C10.  A timestamp submission that the step rejects (its stripped text
    does not match the pattern) leaves [context.user_data] as it was: the
    contract address and the start time keep their values and nothing is
    stored. *)
Theorem invalid_timestamp_keeps_session state text s :
  state = ASK_START \/ state = ASK_END ->
  DATETIME_PATTERN_match (strip text) = false ->
  user_data (snd (step state text s)) = user_data s
  /\ user_data (snd (step state text s)) !! CONTRACT_ADDRESS
     = user_data s !! CONTRACT_ADDRESS
  /\ user_data (snd (step state text s)) !! START_TIME
     = user_data s !! START_TIME
  /\ user_data (snd (step state text s)) !! END_TIME
     = user_data s !! END_TIME.
Proof.
  intros Hstate Hbad. rewrite invalid_timestamp_step by assumption.
  repeat split.
Qed.

End Steps.

Lemma invalid_address_ends_flow_witness :
  states w_pending 1 2 (fun _ => None) 1 ASK_CA_TRADES (u "abc") initial
  = (Ret END,
     with_trace initial (trace initial ++ [ReplyText INVALID_CA]) (polls initial))
  /\ count is_query_client [ReplyText INVALID_CA] = 0%nat.
Proof.
  apply (invalid_address_ends_flow
           w_pending 1 2 (fun _ => None) 1 ASK_CA_TRADES (u "abc") initial).
  - right; reflexivity.
  - vm_compute. intros [H _]. apply H. reflexivity.
Defined.

(** C3, as stated, fails on a timestamp with white space around it: the
    text does not match the pattern, and the step strips it, stores it and
    moves on to the end time. *)
Lemma padded_timestamp_is_accepted :
  DATETIME_PATTERN_match a_padded_start = false
  /\ states w_pending 1 2 (fun _ => None) 1 ASK_START a_padded_start initial
     = (Ret (Some ASK_END),
        {| user_data := {[ START_TIME := a_start ]};
           trace := [ReplyText GOT_START_TIME];
           polls := 0 |}).
Proof. split; vm_compute; reflexivity. Qed.

Lemma invalid_timestamp_reprompts_witness :
  states w_pending 1 2 (fun _ => None) 1 ASK_END (u "2025-09-05") s_ready
  = (Ret (Some ASK_END),
     with_trace s_ready (trace s_ready ++ [ReplyText INVALID_FORMAT])
                (polls s_ready)).
Proof.
  apply (invalid_timestamp_reprompts
           w_pending 1 2 (fun _ => None) 1 ASK_END (u "2025-09-05") s_ready).
  - right; reflexivity.
  - vm_compute; reflexivity.
Defined.

Lemma invalid_timestamp_keeps_session_witness :
  user_data (snd (states w_pending 1 2 (fun _ => None) 1 ASK_END
                    (u "tomorrow") s_ready)) = user_data s_ready
  /\ user_data (snd (states w_pending 1 2 (fun _ => None) 1 ASK_END
                       (u "tomorrow") s_ready)) !! CONTRACT_ADDRESS
     = user_data s_ready !! CONTRACT_ADDRESS
  /\ user_data (snd (states w_pending 1 2 (fun _ => None) 1 ASK_END
                       (u "tomorrow") s_ready)) !! START_TIME
     = user_data s_ready !! START_TIME
  /\ user_data (snd (states w_pending 1 2 (fun _ => None) 1 ASK_END
                       (u "tomorrow") s_ready)) !! END_TIME
     = user_data s_ready !! END_TIME.
Proof.
  apply (invalid_timestamp_keeps_session
           w_pending 1 2 (fun _ => None) 1 ASK_END (u "tomorrow") s_ready).
  - right; reflexivity.
  - vm_compute; reflexivity.
Defined.


(* ===================================================================== *)
(** ** More on the poller *)
(* ===================================================================== *)

Lemma with_trace_same s : with_trace s (trace s) (polls s) = s.
Proof. destruct s; reflexivity. Qed.

Lemma rounds_app n m id p :
  rounds (n + m) id p = rounds n id p ++ rounds m id p.
Proof. induction n as [|n IH]; [reflexivity|]. cbn. rewrite IH. reflexivity. Qed.

Lemma slept_app tr1 tr2 : slept (tr1 ++ tr2) = slept tr1 + slept tr2.
Proof.
  unfold slept. induction tr1 as [|e tr1 IH]; [reflexivity|].
  cbn [app fold_right]. rewrite IH. destruct e; lia.
Qed.

Lemma slept_rounds n id p : slept (rounds n id p) = Z.of_nat n * p.
Proof.
  induction n as [|n IH]; [reflexivity|].
  change (slept (rounds (S n) id p)) with (p + slept (rounds n id p)). lia.
Qed.

Section PollerRounds.

Variable w : world.
Variables (execution_id : str) (budget poll_interval : Z).

(** [n] rounds on states that are not terminal, within the budget; a
    round sleeps, so the interval is not negative when there is one. *)
Lemma poll_pending_rounds n : forall fuel waited s,
  ((0 < n)%nat -> 0 <= poll_interval) ->
  (forall k, (k < n)%nat -> exists state,
      status_reply w (polls s + k) = Ok (Some state) /\ terminal state = false) ->
  (forall k, (k < n)%nat -> waited + Z.of_nat k * poll_interval < budget) ->
  poll w (n + fuel) execution_id budget poll_interval waited s
  = poll w fuel execution_id budget poll_interval
      (waited + Z.of_nat n * poll_interval)
      (with_trace s (trace s ++ rounds n execution_id poll_interval)
                  (polls s + n)).
Proof.
  induction n as [|n IH]; intros fuel waited s Hsleep Hpending Hbudget.
  - cbn [rounds Nat.add]. rewrite app_nil_r, Nat.add_0_r, with_trace_same.
    f_equal. lia.
  - destruct (Hpending 0%nat) as (state & Hst & Hnt); [lia|].
    rewrite Nat.add_0_r in Hst.
    assert (Hpos : 0 <= poll_interval) by (apply Hsleep; lia).
    change (S n + fuel)%nat with (S (n + fuel)).
    rewrite (poll_round _ _ _ _ _ _ _ state);
      [| assumption | specialize (Hbudget 0%nat); lia | assumption | assumption].
    rewrite IH.
    + unfold with_trace; cbn [trace user_data polls].
      rewrite <- app_assoc. cbn [rounds app].
      f_equal; [lia|]. f_equal. lia.
    + intros _. exact Hpos.
    + intros k Hk. cbn [polls with_trace].
      destruct (Hpending (S k)) as (st' & Hst' & Hnt'); [lia|].
      exists st'. split; [|assumption]. rewrite <- Hst'. f_equal. lia.
    + intros k Hk. specialize (Hbudget (S k)). lia.
Qed.

Lemma poll_completed fuel waited s r :
  waited < budget ->
  status_reply w (polls s) = Ok (Some QUERY_STATE_COMPLETED) ->
  results_reply w = Ok r ->
  poll w (S fuel) execution_id budget poll_interval waited s
  = (Ret r,
     with_trace s (trace s ++ [GetStatus execution_id; GetResults execution_id])
                (S (polls s))).
Proof.
  intros Hlt Hst Hres. apply Z.ltb_lt in Hlt. cbn [poll]. rewrite Hlt.
  unfold mbind, M_bind, bind, get_status. rewrite Hst.
  cbn [of_reply ret getitem].
  rewrite bool_decide_eq_true_2 by reflexivity.
  unfold get_results, mbind, M_bind, bind, emit. rewrite Hres.
  unfold with_trace. cbn [of_reply ret trace user_data polls].
  rewrite <- app_assoc. reflexivity.
Qed.

Lemma status_failure_not_completed state e :
  status_failure (Ok (Some state)) = Some e ->
  bool_decide (state = QUERY_STATE_COMPLETED) = false
  /\ bool_decide (state = QUERY_STATE_FAILED)
     || bool_decide (state = QUERY_STATE_CANCELLED) = true
  /\ e = QueryFailed state.
Proof.
  cbn [status_failure]. intros H.
  destruct (bool_decide (state = QUERY_STATE_FAILED)
            || bool_decide (state = QUERY_STATE_CANCELLED)) eqn:E; [|discriminate].
  injection H as <-. split; [|split; reflexivity].
  apply bool_decide_eq_false_2. intros ->.
  revert E. vm_compute. discriminate.
Qed.

Lemma poll_status_failure fuel waited s e :
  waited < budget ->
  status_failure (status_reply w (polls s)) = Some e ->
  poll w (S fuel) execution_id budget poll_interval waited s
  = (Raise e,
     with_trace s (trace s ++ [GetStatus execution_id]) (S (polls s))).
Proof.
  intros Hlt Hfail. apply Z.ltb_lt in Hlt. cbn [poll]. rewrite Hlt.
  unfold mbind, M_bind, bind, get_status.
  destruct (status_reply w (polls s)) as [[state|]|].
  - apply status_failure_not_completed in Hfail as (Hc & Hf & ->).
    cbn [of_reply ret getitem]. rewrite Hc, Hf. reflexivity.
  - injection Hfail as <-. reflexivity.
  - injection Hfail as <-. reflexivity.
Qed.

End PollerRounds.


Lemma fetch_rounds n id p : List.filter is_results_fetch (rounds n id p) = [].
Proof. induction n as [|n IH]; [reflexivity | exact IH]. Qed.

(** X1.  When the first [n] status checks see states that are not
    terminal and the next one sees COMPLETED, within the budget, and the
    poll interval is not negative if the run has to sleep at all
    ([time.sleep] refuses a negative length), [run_query] returns the
    fetched results: it has slept [n] poll intervals and fetched the
    results once, as its last call. *)
Theorem run_query_returns_after_pending
    w fuel query_id params max_wait_minutes poll_interval id s n r :
  execute_reply w query_id params = Ok (Some id) ->
  ((0 < n)%nat -> 0 <= poll_interval) ->
  (forall k, (k < n)%nat -> exists state,
      status_reply w (polls s + k) = Ok (Some state) /\ terminal state = false) ->
  status_reply w (polls s + n) = Ok (Some QUERY_STATE_COMPLETED) ->
  results_reply w = Ok r ->
  (forall k, (k <= n)%nat ->
             Z.of_nat k * poll_interval < max_wait_minutes * 60) ->
  (n < fuel)%nat ->
  run_query w fuel query_id params max_wait_minutes poll_interval s
  = (Ret r,
     with_trace s
       (trace s ++ Execute query_id params :: rounds n id poll_interval
                ++ [GetStatus id; GetResults id])
       (polls s + n + 1))
  /\ slept (Execute query_id params :: rounds n id poll_interval
            ++ [GetStatus id; GetResults id]) = Z.of_nat n * poll_interval
  /\ count is_results_fetch
       (Execute query_id params :: rounds n id poll_interval
        ++ [GetStatus id; GetResults id]) = 1%nat.
Proof.
  intros Hexec Hsleep Hpending Hdone Hres Hbudget Hfuel.
  split; [|split].
  - rewrite (run_query_submitted _ _ _ _ _ _ id) by assumption.
    replace fuel with (n + S (fuel - n - 1))%nat by lia.
    rewrite poll_pending_rounds.
    + rewrite (poll_completed _ _ _ _ _ _ _ r).
      * unfold with_trace; cbn [trace user_data polls].
        rewrite <- !app_assoc. cbn [app]. do 2 f_equal. lia.
      * specialize (Hbudget n). lia.
      * exact Hdone.
      * exact Hres.
    + exact Hsleep.
    + exact Hpending.
    + intros k Hk. specialize (Hbudget k). lia.
  - change (slept (Execute query_id params :: ?l)) with (slept l).
    rewrite slept_app, slept_rounds. cbn. lia.
  - unfold count. cbn [List.filter is_results_fetch].
    rewrite List.filter_app.
    rewrite fetch_rounds.
    reflexivity.
Qed.

(** X2.  After [n] rounds on states that are not terminal (with a poll
    interval that is not negative if there is any round: [time.sleep]
    refuses a negative length), a status check that fails in transport,
    has no "state" entry, or reports FAILED or CANCELLED ends the run with
    the matching exception: no retry, no further sleep, and the results
    are never fetched. *)
Theorem run_query_raises_on_failing_check
    w fuel query_id params max_wait_minutes poll_interval id s n e :
  execute_reply w query_id params = Ok (Some id) ->
  ((0 < n)%nat -> 0 <= poll_interval) ->
  (forall k, (k < n)%nat -> exists state,
      status_reply w (polls s + k) = Ok (Some state) /\ terminal state = false) ->
  status_failure (status_reply w (polls s + n)) = Some e ->
  (forall k, (k <= n)%nat ->
             Z.of_nat k * poll_interval < max_wait_minutes * 60) ->
  (n < fuel)%nat ->
  run_query w fuel query_id params max_wait_minutes poll_interval s
  = (Raise e,
     with_trace s
       (trace s ++ Execute query_id params :: rounds n id poll_interval
                ++ [GetStatus id])
       (polls s + n + 1))
  /\ count is_results_fetch
       (Execute query_id params :: rounds n id poll_interval ++ [GetStatus id])
     = 0%nat.
Proof.
  intros Hexec Hsleep Hpending Hfail Hbudget Hfuel. split.
  - rewrite (run_query_submitted _ _ _ _ _ _ id) by assumption.
    replace fuel with (n + S (fuel - n - 1))%nat by lia.
    rewrite poll_pending_rounds.
    + rewrite (poll_status_failure _ _ _ _ _ _ _ e).
      * unfold with_trace; cbn [trace user_data polls].
        rewrite <- !app_assoc. cbn [app]. do 2 f_equal. lia.
      * specialize (Hbudget n). lia.
      * exact Hfail.
    + exact Hsleep.
    + exact Hpending.
    + intros k Hk. specialize (Hbudget k). lia.
  - unfold count. cbn [List.filter is_results_fetch].
    rewrite List.filter_app, fetch_rounds. reflexivity.
Qed.

(** X3.  On a remote side that never reports a terminal state, with a
    positive poll interval, [run_query] makes as many status checks as
    poll intervals are needed to cover the budget, sleeps as many
    intervals, and raises [TimeoutError]. *)
Theorem run_query_timeout_check_count
    w fuel query_id params max_wait_minutes poll_interval id s n :
  0 < poll_interval ->
  execute_reply w query_id params = Ok (Some id) ->
  (forall k, exists state,
      status_reply w k = Ok (Some state) /\ terminal state = false) ->
  (0 < n)%nat ->
  (Z.of_nat n - 1) * poll_interval < max_wait_minutes * 60
    <= Z.of_nat n * poll_interval ->
  (n <= fuel)%nat ->
  run_query w fuel query_id params max_wait_minutes poll_interval s
  = (Raise TimeoutError,
     with_trace s (trace s ++ Execute query_id params :: rounds n id poll_interval)
                (polls s + n))
  /\ count is_status_check (Execute query_id params :: rounds n id poll_interval)
     = n
  /\ slept (Execute query_id params :: rounds n id poll_interval)
     = Z.of_nat n * poll_interval.
Proof.
  intros Hpos Hexec Hnever Hn Hcover Hfuel. split; [|split].
  - rewrite (run_query_submitted _ _ _ _ _ _ id) by assumption.
    rewrite (poll_never_terminal w id _ poll_interval n);
      [| assumption | assumption | assumption | lia | assumption | lia].
    unfold with_trace; cbn [trace user_data polls].
    rewrite <- app_assoc. reflexivity.
  - change (count is_status_check (Execute query_id params :: ?l))
      with (count is_status_check l).
    apply count_rounds.
  - change (slept (Execute query_id params :: ?l)) with (slept l).
    apply slept_rounds.
Qed.

(** X4.  With a budget of zero or less the loop is not entered: the query
    is submitted, no status is checked, whatever the remote state, and
    [TimeoutError] is raised. *)
Theorem run_query_without_budget_checks_nothing
    w fuel query_id params max_wait_minutes poll_interval id s :
  execute_reply w query_id params = Ok (Some id) ->
  max_wait_minutes * 60 <= 0 ->
  run_query w fuel query_id params max_wait_minutes poll_interval s
  = (Raise TimeoutError,
     with_trace s (trace s ++ [Execute query_id params]) (polls s)).
Proof.
  intros Hexec Hbudget.
  rewrite (run_query_submitted _ _ _ _ _ _ id) by assumption.
  apply poll_budget_spent. lia.
Qed.

(** A submission that fails, or whose reply has no "execution_id", ends
    the run at once. *)
Theorem run_query_raises_on_failed_submission
    w fuel query_id params max_wait_minutes poll_interval s e :
  submit_failure (execute_reply w query_id params) = Some e ->
  run_query w fuel query_id params max_wait_minutes poll_interval s
  = (Raise e, with_trace s (trace s ++ [Execute query_id params]) (polls s)).
Proof.
  intros H. unfold run_query, execute_query, mbind, M_bind, bind, emit.
  destruct (execute_reply w query_id params) as [[id|]|];
    [discriminate H | injection H as <- | injection H as <-]; reflexivity.
Qed.


Section PollerShape.

Variable w : world.
Variables (execution_id : str) (budget poll_interval : Z).

Lemma loop_run_stop waited s s' o tail :
  trace s' = trace s ++ tail ->
  user_data s' = user_data s ->
  run_end execution_id tail ->
  (tail = [GetStatus execution_id; GetResults execution_id] ->
   status_reply w (polls s) = Ok (Some QUERY_STATE_COMPLETED)
   /\ forall r, o = Ret r -> results_reply w = Ok r) ->
  (forall r, o = Ret r ->
             tail = [GetStatus execution_id; GetResults execution_id]) ->
  loop_run w execution_id budget poll_interval waited s s' o 0 tail.
Proof.
  intros Ht Hu He Hc Hr. unfold loop_run. cbn [rounds app].
  split; [exact Ht|]. split; [exact He|]. split; [exact Hu|].
  split; [intros j Hj; lia|]. split.
  - intros Htail. rewrite Nat.add_0_r. apply Hc, Htail.
  - intros r Ho. split; [apply (Hr r Ho)|]. apply (Hc (Hr r Ho)), Ho.
Qed.

Lemma loop_run_round waited s s' o k tail state :
  waited < budget ->
  status_reply w (polls s) = Ok (Some state) ->
  terminal state = false ->
  loop_run w execution_id budget poll_interval (waited + poll_interval)
    (with_trace s (trace s ++ [GetStatus execution_id; Sleep poll_interval])
                (S (polls s)))
    s' o k tail ->
  loop_run w execution_id budget poll_interval waited s s' o (S k) tail.
Proof.
  intros Hlt Hst Hnt (Ht & He & Hu & Hj & Hdone & Hret).
  cbn [trace user_data polls with_trace] in *. unfold loop_run.
  split; [rewrite Ht, <- app_assoc; reflexivity|].
  split; [exact He|]. split; [exact Hu|]. split; [|split].
  - intros [|j] Hlt'.
    + split; [lia|]. exists state. rewrite Nat.add_0_r. auto.
    + destruct (Hj j) as [Hb (st' & Hst' & Hnt')]; [lia|]. split; [lia|].
      exists st'. split; [|exact Hnt']. rewrite <- Hst'. f_equal. lia.
  - intros Htail. rewrite <- (Hdone Htail). f_equal. lia.
  - exact Hret.
Qed.

(** Every run of the loop is a [loop_run]. *)
Lemma poll_shape fuel : forall waited s o s',
  poll w fuel execution_id budget poll_interval waited s = (o, s') ->
  exists k tail,
    loop_run w execution_id budget poll_interval waited s s' o k tail.
Proof.
  assert (Hnone : forall waited s (o : outcome results_json),
             (forall r, o <> Ret r) ->
             exists k tail,
               loop_run w execution_id budget poll_interval waited s s o k tail).
  { intros waited s o Ho. exists 0%nat, []. apply loop_run_stop.
    - symmetry; apply app_nil_r.
    - reflexivity.
    - left; reflexivity.
    - discriminate.
    - intros r Hr. destruct (Ho r Hr). }
  assert (Hcheck : forall waited s (o : outcome results_json),
             (forall r, o <> Ret r) ->
             exists k tail,
               loop_run w execution_id budget poll_interval waited s
                 (with_trace s (trace s ++ [GetStatus execution_id]) (S (polls s)))
                 o k tail).
  { intros waited s o Ho. exists 0%nat, [GetStatus execution_id].
    apply loop_run_stop.
    - reflexivity.
    - reflexivity.
    - right; left; reflexivity.
    - discriminate.
    - intros r Hr. destruct (Ho r Hr). }
  induction fuel as [|fuel IH]; intros waited s o s' H; cbn [poll] in H;
    destruct (waited <? budget) eqn:Hlt;
    try (injection H as <- <-; apply Hnone; discriminate).
  unfold mbind, M_bind, bind, get_status in H.
  destruct (status_reply w (polls s)) as [[state|]|] eqn:Hst;
    cbn [of_reply ret raise getitem] in H;
    try (injection H as <- <-; apply Hcheck; discriminate).
  destruct (bool_decide (state = QUERY_STATE_COMPLETED)) eqn:Hc.
  - apply bool_decide_eq_true_1 in Hc. subst state.
    unfold get_results, mbind, M_bind, bind, emit in H.
    cbn [trace user_data polls] in H.
    exists 0%nat, [GetStatus execution_id; GetResults execution_id].
    destruct (results_reply w) as [r|] eqn:Hres;
      cbn [of_reply ret raise] in H; injection H as <- <-.
    + apply loop_run_stop; cbn [trace user_data].
      * rewrite <- app_assoc. reflexivity.
      * reflexivity.
      * right; right; reflexivity.
      * intros _. split; [exact Hst|].
        intros r' Hr'. injection Hr' as <-. exact Hres.
      * reflexivity.
    + apply loop_run_stop; cbn [trace user_data].
      * rewrite <- app_assoc. reflexivity.
      * reflexivity.
      * right; right; reflexivity.
      * intros _. split; [exact Hst|]. discriminate.
      * discriminate.
  - destruct (bool_decide (state = QUERY_STATE_FAILED)
              || bool_decide (state = QUERY_STATE_CANCELLED)) eqn:Hf.
    + injection H as <- <-. apply Hcheck. discriminate.
    + unfold sleep in H. destruct (poll_interval <? 0);
        [injection H as <- <-; apply Hcheck; discriminate|].
      unfold emit in H. cbn [trace user_data polls] in H.
      rewrite <- app_assoc in H. cbn [app] in H.
      apply IH in H as (k & tail & Hrun).
      exists (S k), tail. apply (loop_run_round _ _ _ _ _ _ state).
      * apply Z.ltb_lt. exact Hlt.
      * exact Hst.
      * unfold terminal. rewrite Hc. exact Hf.
      * exact Hrun.
Qed.

End PollerShape.


Lemma slept_run_end id tail : run_end id tail -> slept tail = 0.
Proof. intros [-> | [-> | ->]]; reflexivity. Qed.

(** X5.  The calls of every run of [run_query] are in this order: the
    submission; if it gave an execution id, rounds of one status check and
    one sleep on states that are not terminal, each begun within the
    budget; then nothing more, or a last status check, or a last status
    check that saw COMPLETED followed by the one fetch of the results.
    The session is not touched. *)
Theorem run_query_calls_in_order
    w fuel query_id params max_wait_minutes poll_interval s o s' :
  run_query w fuel query_id params max_wait_minutes poll_interval s = (o, s') ->
  (exists e,
      submit_failure (execute_reply w query_id params) = Some e
      /\ o = Raise e
      /\ s' = with_trace s (trace s ++ [Execute query_id params]) (polls s))
  \/ (exists id k tail,
         execute_reply w query_id params = Ok (Some id)
         /\ loop_run w id (max_wait_minutes * 60) poll_interval 0
              (with_trace s (trace s ++ [Execute query_id params]) (polls s))
              s' o k tail).
Proof.
  intros H.
  destruct (execute_reply w query_id params) as [[id|]|] eqn:Hexec.
  - right. rewrite (run_query_submitted _ _ _ _ _ _ id) in H by assumption.
    apply poll_shape in H as (k & tail & Hrun). eauto.
  - left. rewrite (run_query_raises_on_failed_submission
                     _ _ _ _ _ _ _ (KeyError (u "execution_id"))) in H
      by (rewrite Hexec; reflexivity).
    injection H as <- <-. eauto.
  - left. rewrite (run_query_raises_on_failed_submission
                     _ _ _ _ _ _ _ HTTPError) in H
      by (rewrite Hexec; reflexivity).
    injection H as <- <-. eauto.
Qed.

(** X6.  In every run of [run_query] the time slept is zero or less than
    the budget plus one poll interval. *)
Theorem run_query_sleeps_less_than_budget_plus_interval
    w fuel query_id params max_wait_minutes poll_interval s o s' :
  run_query w fuel query_id params max_wait_minutes poll_interval s = (o, s') ->
  exists evs,
    trace s' = trace s ++ evs
    /\ (slept evs = 0 \/ slept evs < max_wait_minutes * 60 + poll_interval).
Proof.
  intros H. apply run_query_calls_in_order in H
    as [(e & _ & _ & ->) | (id & k & tail & _ & Ht & He & _ & Hj & _)].
  - exists [Execute query_id params]. split; [reflexivity | left; reflexivity].
  - cbn [trace with_trace] in Ht.
    exists (Execute query_id params :: rounds k id poll_interval ++ tail).
    split; [rewrite Ht, <- app_assoc; reflexivity|].
    change (slept (Execute query_id params :: ?l)) with (slept l).
    rewrite slept_app, slept_rounds, (slept_run_end id tail He).
    destruct k as [|k]; [left; lia|]. right.
    destruct (Hj k) as [Hb _]; lia.
Qed.

(** X7.  With a positive poll interval [run_query] ends: fuel for as many
    rounds as poll intervals cover the budget is never used up. *)
Theorem run_query_terminates
    w fuel query_id params max_wait_minutes poll_interval s :
  0 < poll_interval ->
  max_wait_minutes * 60 <= Z.of_nat fuel * poll_interval ->
  fst (run_query w fuel query_id params max_wait_minutes poll_interval s)
  <> OutOfFuel.
Proof.
  intros Hpos Hfuel. unfold run_query, execute_query, mbind, M_bind, bind, emit.
  destruct (execute_reply w query_id params) as [[id|]|];
    cbn [of_reply ret raise getitem fst]; try discriminate.
  apply poll_terminates; lia.
Qed.

(** X8.  With a poll interval of zero, a positive budget and a remote
    side that never reports a terminal state, [run_query] does not end:
    whatever the fuel, it is used up. *)
Theorem run_query_never_ends_on_zero_interval
    w fuel query_id params max_wait_minutes id s :
  0 < max_wait_minutes * 60 ->
  execute_reply w query_id params = Ok (Some id) ->
  (forall k, exists state,
      status_reply w k = Ok (Some state) /\ terminal state = false) ->
  fst (run_query w fuel query_id params max_wait_minutes 0 s) = OutOfFuel.
Proof.
  intros Hbudget Hexec Hnever.
  rewrite (run_query_submitted _ _ _ _ _ _ id) by assumption.
  replace fuel with (fuel + 0)%nat by lia.
  rewrite poll_pending_rounds.
  - cbn [poll].
    destruct (0 + Z.of_nat fuel * 0 <? max_wait_minutes * 60) eqn:E.
    + reflexivity.
    + apply Z.ltb_ge in E. lia.
  - lia.
  - intros k _. apply Hnever.
  - intros k _. lia.
Qed.



Section Shown.

Variable w : world.
Variables TOP_TRADERS_QUERY TRADES_QUERY : Z.
Variable format_2f : value -> option str.
Variable fuel : nat.

(** Rendering an entry changes nothing: it gives a text or raises. *)
Lemma top_entry_pure r s :
  (exists entry, top_entry format_2f r s = (Ret entry, s))
  \/ (exists e, top_entry format_2f r s = (Raise e, s)).
Proof.
  unfold top_entry, mbind, M_bind, bind, fmt_2f.
  destruct (get r (u "trader_id")); cbn [getitem ret raise]; [|eauto].
  destruct (get r (u "profit_usd")) as [p|]; cbn [getitem ret raise]; [|eauto].
  destruct (format_2f p); cbn [mret M_ret ret raise]; [|eauto].
  destruct (get r (u "roi")) as [q|]; cbn [getitem ret raise]; [|eauto].
  destruct (format_2f q); cbn [mret M_ret ret raise]; eauto.
Qed.

Lemma top_message_pure rows : forall msg s,
  (exists m, top_message format_2f msg rows s = (Ret m, s))
  \/ (exists e, top_message format_2f msg rows s = (Raise e, s)).
Proof.
  induction rows as [|r rows IH]; intros msg s; cbn [top_message].
  - left. eauto.
  - unfold mbind, M_bind, bind.
    destruct (top_entry_pure r s) as [(entry & ->) | (e & ->)]; [apply IH | eauto].
Qed.

(** Whatever the results, the top-traders view ends the conversation
    with one edit of the status message. *)
Lemma top_view_shown token_name results s2 :
  exists n,
    try_except (top_view format_2f token_name results) report_error s2
    = (Ret END, with_trace s2 (trace s2 ++ [EditText n]) (polls s2)).
Proof.
  unfold try_except, top_view.
  destruct (rows_of results) as [|first rest].
  - eexists. reflexivity.
  - unfold mbind, M_bind, bind.
    destruct (top_message_pure (first :: rest)
                (u "📊 *Top Traders for " ++ token_name ++ u "*" ++ nl ++ nl) s2)
      as [(m & ->) | (e & ->)]; eexists; reflexivity.
Qed.

Lemma run_query_keeps s query_id params o s2 :
  run_query w fuel query_id params 30 5 s = (o, s2) ->
  user_data s2 = user_data s
  /\ exists evs, trace s2 = trace s ++ evs /\ outputs evs = [].
Proof.
  intros H. destruct (quiet_run_query _ _ _ _ _ _ _ _ _ H) as (evs & ? & ? & ?).
  eauto.
Qed.

(** What a flow does once its query has run. *)
Lemma try_run {A} (m : M A) (v : A -> M (option conv_state)) s1 o s2 :
  m s1 = (o, s2) ->
  try_except (m ≫= v) report_error s1
  = match o with
    | Ret a => try_except (v a) report_error s2
    | Raise e => report_error e s2
    | OutOfFuel => (OutOfFuel, s2)
    end.
Proof.
  intros H. unfold try_except, mbind, M_bind, bind. rewrite H.
  destruct o; reflexivity.
Qed.

(** X9.  Whatever the message and whatever the remote side answers,
    [handle_ca_top] ends the conversation without raising: it leaves the
    session as it was, sends no document, and after a valid address it
    edits the status message exactly once. *)
Theorem handle_ca_top_always_ends text s :
  (360 <= fuel)%nat ->
  exists s' evs,
    handle_ca_top w TOP_TRADERS_QUERY format_2f fuel text s = (Ret END, s')
    /\ user_data s' = user_data s
    /\ trace s' = trace s ++ evs
    /\ count is_document evs = 0%nat
    /\ (valid_ca (strip text) = true -> exists n, outputs evs = [EditText n]).
Proof.
  intros Hfuel. destruct (valid_ca (strip text)) eqn:Hv.
  - rewrite valid_ca_launches_top by assumption.
    destruct (run_query w fuel TOP_TRADERS_QUERY {[u "CA" := strip text]} 30 5
                (top_launch w (strip text) s)) as [o s2] eqn:Hrun.
    destruct (run_query_keeps _ _ _ _ _ Hrun) as (Hu & evs0 & Ht & Ho).
    cbn [top_launch with_trace trace user_data] in Hu, Ht.
    rewrite (try_run _ _ _ _ _ Hrun).
    assert (exists n,
               match o with
               | Ret a => try_except
                            (top_view format_2f
                               (default UNKNOWN_TOKEN (token_reply w (strip text))) a)
                            report_error s2
               | Raise e => report_error e s2
               | OutOfFuel => (OutOfFuel, s2)
               end
               = (Ret END, with_trace s2 (trace s2 ++ [EditText n]) (polls s2)))
      as (n & ->).
    { destruct o as [results|e|].
      - apply top_view_shown.
      - exists (ErrorNotice e). reflexivity.
      - exfalso. apply (run_query_default_terminates w fuel TOP_TRADERS_QUERY
                          {[u "CA" := strip text]} (top_launch w (strip text) s) Hfuel).
        rewrite Hrun. reflexivity. }
    eexists. eexists. split; [reflexivity|].
    unfold with_trace; cbn [trace user_data polls].
    split; [exact Hu|]. split; [rewrite Ht, <- !app_assoc; reflexivity|].
    split.
    + rewrite count_document_outputs, !outputs_app, Ho. reflexivity.
    + intros _. exists n. rewrite !outputs_app, Ho. reflexivity.
  - unfold handle_ca_top. rewrite Hv.
    eexists. exists [ReplyText INVALID_CA].
    split; [reflexivity|]. repeat split. discriminate.
Qed.

End Shown.


Section Reported.

Variable w : world.
Variables TOP_TRADERS_QUERY TRADES_QUERY : Z.
Variable format_2f : value -> option str.
Variable fuel : nat.

(** X10.  In both flows an exception raised by [run_query] is caught: the
    only output is the error notice for that exception, and the
    conversation ends. *)
Theorem flows_report_poller_errors text s e s2 :
  (valid_ca (strip text) = true ->
   run_query w fuel TOP_TRADERS_QUERY {[ u "CA" := strip text ]} 30 5
     (top_launch w (strip text) s) = (Raise e, s2) ->
   exists evs,
     handle_ca_top w TOP_TRADERS_QUERY format_2f fuel text s
     = (Ret END, with_trace s2 (trace s ++ evs) (polls s2))
     /\ outputs evs = [EditText (ErrorNotice e)])
  /\ (forall ca start_time,
      DATETIME_PATTERN_match (strip text) = true ->
      user_data s !! CONTRACT_ADDRESS = Some ca ->
      user_data s !! START_TIME = Some start_time ->
      run_query w fuel TRADES_QUERY (trades_params ca start_time (strip text)) 30 5
        (trades_launch ca start_time (strip text) s) = (Raise e, s2) ->
      exists evs,
        fetch_trades w TRADES_QUERY fuel text s
        = (Ret END, with_trace s2 (trace s ++ evs) (polls s2))
        /\ outputs evs = [EditText (ErrorNotice e)]).
Proof.
  split.
  - intros Hv Hrun. rewrite valid_ca_launches_top by assumption.
    rewrite (try_run _ _ _ _ _ Hrun).
    destruct (run_query_keeps _ _ _ _ _ _ _ Hrun) as (_ & evs0 & Ht & Ho).
    cbn [top_launch with_trace trace] in Ht.
    eexists. split.
    + unfold report_error, mbind, M_bind, bind, emit, with_trace.
      cbn [trace user_data polls mret M_ret ret].
      rewrite Ht, <- !app_assoc. reflexivity.
    + rewrite !outputs_app, Ho. reflexivity.
  - intros ca start_time Hv Hca Hstart Hrun.
    rewrite (valid_end_launches_trades _ _ _ _ _ ca start_time) by assumption.
    rewrite (try_run _ _ _ _ _ Hrun).
    destruct (run_query_keeps _ _ _ _ _ _ _ Hrun) as (_ & evs0 & Ht & Ho).
    cbn [trades_launch trace] in Ht.
    eexists. split.
    + unfold report_error, mbind, M_bind, bind, emit, with_trace.
      cbn [trace user_data polls mret M_ret ret].
      rewrite Ht, <- !app_assoc. reflexivity.
    + rewrite !outputs_app, Ho. reflexivity.
Qed.

(** X11.  In the trades flow, for rows without a key outside the first
    row's keys and without a lone surrogate in a key or a cell, the
    document is always sent after the inline view, whatever the size of
    the view, and it holds the header and the cells of every row; a view
    of at most 4096 characters is shown as it is. *)
Theorem trades_flow_always_exports
    text s ca start_time results s2 first rest :
  DATETIME_PATTERN_match (strip text) = true ->
  user_data s !! CONTRACT_ADDRESS = Some ca ->
  user_data s !! START_TIME = Some start_time ->
  run_query w fuel TRADES_QUERY (trades_params ca start_time (strip text)) 30 5
    (trades_launch ca start_time (strip text) s) = (Ret results, s2) ->
  rows_of results = first :: rest ->
  Forall (fits (keys first)) rest ->
  forallb encodable_row (first :: rest) = true ->
  exists evs document,
    fetch_trades w TRADES_QUERY fuel text s
    = (Ret END, with_trace s2 (trace s ++ evs) (polls s2))
    /\ outputs evs
       = [EditText (inline_view (trades_message (first :: rest)));
          ReplyDocument (u "trades_" ++ ca ++ u ".csv") document CAPTION]
    /\ (len (trades_message (first :: rest)) <= 4096 ->
        inline_view (trades_message (first :: rest))
        = Text (trades_message (first :: rest)))
    /\ read_csv document
       = Some (keys first :: map (cells (keys first)) (first :: rest)).
Proof.
  intros Hv Hca Hstart Hrun Hrows Hfits Henc.
  destruct (trades_fetched w TRADES_QUERY fuel text s ca start_time results s2
              (Ret END) _ Hv Hca Hstart Hrun
              (trades_view_exported ca results s2 first rest Hrows Hfits Henc))
    as (evs0 & -> & Ho).
  eexists. eexists. split; [reflexivity|]. split; [exact Ho|]. split.
  - intros Hshort. unfold inline_view.
    destruct (len (trades_message (first :: rest)) <=? 4096) eqn:E;
      [reflexivity | apply Z.leb_gt in E; lia].
  - apply read_written.
Qed.


(** Whatever the results, the trades view ends the conversation, with one
    of its three shapes of output. *)
Lemma trades_view_shown ca results s2 :
  exists shown,
    try_except (trades_view ca results) report_error s2
    = (Ret END, with_trace s2 (trace s2 ++ shown) (polls s2))
    /\ outputs shown = shown
    /\ trades_outputs ca shown.
Proof.
  unfold try_except, trades_view.
  destruct (rows_of results) as [|first rest].
  - eexists. split; [reflexivity|]. split; [reflexivity|]. left. eauto.
  - unfold mbind, M_bind, bind, emit. cbn [trace user_data polls].
    destruct (export_csv (first :: rest)) as [e|output];
      cbn [of_sum raise mret M_ret ret];
      [| unfold encode_utf8; destruct (existsb surrogate output);
         cbn [of_sum raise mret M_ret ret] ].
    + eexists. split.
      * unfold report_error, mbind, M_bind, bind, emit, with_trace.
        cbn [trace user_data polls]. rewrite <- app_assoc. reflexivity.
      * split; [reflexivity|]. right; right. eauto.
    + eexists. split.
      * unfold report_error, mbind, M_bind, bind, emit, with_trace.
        cbn [trace user_data polls]. rewrite <- app_assoc. reflexivity.
      * split; [reflexivity|]. right; right. eauto.
    + eexists. split.
      * unfold with_trace. cbn [trace user_data polls].
        rewrite <- app_assoc. reflexivity.
      * split; [reflexivity|]. right; left. eauto.
Qed.

(** X12.  On an accepted end time, with the address and the start time in
    the session, [fetch_trades] ends the conversation without raising,
    having stored the end time, and what it shows has one of three shapes:
    one edit of the status message; the inline view and the document; the
    inline view and the error of the export. *)
Theorem fetch_trades_always_ends text s ca start_time :
  (360 <= fuel)%nat ->
  DATETIME_PATTERN_match (strip text) = true ->
  user_data s !! CONTRACT_ADDRESS = Some ca ->
  user_data s !! START_TIME = Some start_time ->
  exists s' evs,
    fetch_trades w TRADES_QUERY fuel text s = (Ret END, s')
    /\ user_data s' = <[END_TIME := strip text]> (user_data s)
    /\ trace s' = trace s ++ evs
    /\ trades_outputs ca (outputs evs).
Proof.
  intros Hfuel Hv Hca Hstart.
  rewrite (valid_end_launches_trades _ _ _ _ _ ca start_time) by assumption.
  destruct (run_query w fuel TRADES_QUERY
              (trades_params ca start_time (strip text)) 30 5
              (trades_launch ca start_time (strip text) s)) as [o s2] eqn:Hrun.
  destruct (run_query_keeps _ _ _ _ _ _ _ Hrun) as (Hu & evs0 & Ht & Ho).
  cbn [trades_launch trace user_data] in Hu, Ht.
  rewrite (try_run _ _ _ _ _ Hrun).
  assert (exists shown,
             match o with
             | Ret a => try_except (trades_view ca a) report_error s2
             | Raise e => report_error e s2
             | OutOfFuel => (OutOfFuel, s2)
             end
             = (Ret END, with_trace s2 (trace s2 ++ shown) (polls s2))
             /\ outputs shown = shown /\ trades_outputs ca shown)
    as (shown & -> & Hshown & Hshape).
  { destruct o as [results|e|].
    - apply trades_view_shown.
    - exists [EditText (ErrorNotice e)]. split; [reflexivity|].
      split; [reflexivity|]. left. eauto.
    - exfalso. apply (run_query_default_terminates w fuel TRADES_QUERY
                        (trades_params ca start_time (strip text))
                        (trades_launch ca start_time (strip text) s) Hfuel).
      rewrite Hrun. reflexivity. }
  eexists. eexists. split; [reflexivity|].
  unfold with_trace; cbn [trace user_data polls].
  split; [exact Hu|]. split; [rewrite Ht, <- !app_assoc; reflexivity|].
  rewrite !outputs_app, Ho, Hshown. exact Hshape.
Qed.

End Reported.


(* ===================================================================== *)
(** ** The top-traders view *)
(* ===================================================================== *)

Section TopView.

Variable w : world.
Variable TOP_TRADERS_QUERY : Z.
Variable format_2f : value -> option str.
Variable fuel : nat.

Lemma top_entry_rendered r entry s :
  top_entry_text format_2f r = Some entry ->
  top_entry format_2f r s = (Ret entry, s).
Proof.
  unfold top_entry_text, top_entry, mbind, M_bind, bind, fmt_2f.
  destruct (get r (u "trader_id")); [|discriminate].
  destruct (get r (u "profit_usd")) as [p|]; [|discriminate].
  destruct (get r (u "roi")) as [q|]; [|discriminate].
  cbn [getitem ret].
  destruct (format_2f p); [|discriminate].
  destruct (format_2f q); [|discriminate].
  intros H. injection H as <-. reflexivity.
Qed.

Lemma top_entry_refused r s :
  top_entry_text format_2f r = None ->
  exists e, top_entry format_2f r s = (Raise e, s)
            /\ (e = FormatError \/ exists k, e = KeyError k).
Proof.
  unfold top_entry_text, top_entry, mbind, M_bind, bind, fmt_2f.
  destruct (get r (u "trader_id")); cbn [getitem ret raise]; [|eauto 6].
  destruct (get r (u "profit_usd")) as [p|]; cbn [getitem ret raise]; [|eauto 6].
  destruct (format_2f p); cbn [mret M_ret ret raise].
  - destruct (get r (u "roi")) as [q|]; cbn [getitem ret raise]; [|eauto 6].
    destruct (format_2f q); cbn [mret M_ret ret raise]; [discriminate | eauto].
  - eauto.
Qed.

Lemma top_message_rendered rows : forall entries msg s,
  Forall2 (fun r entry => top_entry_text format_2f r = Some entry) rows entries ->
  top_message format_2f msg rows s = (Ret (msg ++ concat entries), s).
Proof.
  induction rows as [|r rows IH]; intros entries msg s H; inversion H; subst.
  - cbn. rewrite app_nil_r. reflexivity.
  - cbn [top_message concat]. unfold mbind, M_bind, bind.
    rewrite (top_entry_rendered r y) by assumption.
    rewrite IH with (entries := l') by assumption.
    rewrite <- app_assoc. reflexivity.
Qed.

Lemma top_message_refused rows : forall msg s,
  Exists (fun r => top_entry_text format_2f r = None) rows ->
  exists e, top_message format_2f msg rows s = (Raise e, s)
            /\ (e = FormatError \/ exists k, e = KeyError k).
Proof.
  induction rows as [|r rows IH]; intros msg s H; [inversion H|].
  cbn [top_message]. unfold mbind, M_bind, bind.
  destruct (top_entry_text format_2f r) as [entry|] eqn:E.
  - rewrite (top_entry_rendered r entry) by assumption. apply IH.
    inversion H; subst; [congruence | assumption].
  - destruct (top_entry_refused r s E) as (e & -> & He). eauto.
Qed.

(** X13.  The top-traders view has no cap: when every fetched row has the
    three columns and formats, the status message is edited to the title
    followed by the entries of all the rows, in order. *)
Theorem top_view_renders_every_row text s results s2 first rest entries :
  valid_ca (strip text) = true ->
  run_query w fuel TOP_TRADERS_QUERY {[ u "CA" := strip text ]} 30 5
    (top_launch w (strip text) s) = (Ret results, s2) ->
  rows_of results = first :: rest ->
  Forall2 (fun r entry => top_entry_text format_2f r = Some entry)
          (first :: rest) entries ->
  exists evs,
    handle_ca_top w TOP_TRADERS_QUERY format_2f fuel text s
    = (Ret END, with_trace s2 (trace s ++ evs) (polls s2))
    /\ outputs evs
       = [EditText
            (Text (top_title (default UNKNOWN_TOKEN (token_reply w (strip text)))
                   ++ concat entries))]
    /\ length entries = length (first :: rest).
Proof.
  intros Hv Hrun Hrows Hall.
  destruct (top_fetched w TOP_TRADERS_QUERY format_2f fuel text s results s2
              (Ret END)
              [EditText
                 (Text (top_title (default UNKNOWN_TOKEN (token_reply w (strip text)))
                        ++ concat entries))] Hv Hrun) as (evs0 & -> & Ho).
  { unfold try_except, top_view. rewrite Hrows.
    unfold mbind, M_bind, bind.
    rewrite (top_message_rendered (first :: rest) entries) by assumption.
    reflexivity. }
  eexists. split; [reflexivity|]. split; [exact Ho|].
  symmetry. eapply Forall2_length. exact Hall.
Qed.

(** X14.  In the top-traders view one row without a column, or with a
    value the [.2f] format does not apply to, turns the whole view into an
    error notice (a KeyError or a format error): no entry is shown. *)
Theorem top_view_rejects_incomplete_rows text s results s2 :
  valid_ca (strip text) = true ->
  run_query w fuel TOP_TRADERS_QUERY {[ u "CA" := strip text ]} 30 5
    (top_launch w (strip text) s) = (Ret results, s2) ->
  Exists (fun r => top_entry_text format_2f r = None) (rows_of results) ->
  exists evs e,
    handle_ca_top w TOP_TRADERS_QUERY format_2f fuel text s
    = (Ret END, with_trace s2 (trace s ++ evs) (polls s2))
    /\ outputs evs = [EditText (ErrorNotice e)]
    /\ (e = FormatError \/ exists k, e = KeyError k).
Proof.
  intros Hv Hrun Hbad.
  destruct (rows_of results) as [|first rest] eqn:Hrows; [inversion Hbad|].
  destruct (top_message_refused (first :: rest)
              (top_title (default UNKNOWN_TOKEN (token_reply w (strip text)))) s2 Hbad)
    as (e & Hmsg & He).
  destruct (top_fetched w TOP_TRADERS_QUERY format_2f fuel text s results s2
              (Ret END) [EditText (ErrorNotice e)] Hv Hrun) as (evs0 & -> & Ho).
  { unfold try_except, top_view. rewrite Hrows.
    unfold mbind, M_bind, bind. unfold top_title in Hmsg. rewrite Hmsg.
    reflexivity. }
  eexists. exists e. split; [reflexivity|]. split; [exact Ho | exact He].
Qed.

End TopView.

(* ===================================================================== *)
(** ** Accepted timestamps *)
(* ===================================================================== *)

Lemma lstrip_head s c t : lstrip s = c :: t -> isspace c = false.
Proof.
  induction s as [|a s IH]; [discriminate|]. cbn [lstrip].
  destruct (isspace a) eqn:E; [exact IH|].
  intros H. injection H as <- _. exact E.
Qed.

Lemma strip_last s t c : strip s = t ++ [c] -> isspace c = false.
Proof.
  unfold strip, rstrip. intros H.
  apply (f_equal (@rev N)) in H. rewrite rev_involutive, rev_app_distr in H.
  cbn [rev app] in H. eapply lstrip_head. exact H.
Qed.

Lemma match_items_split p : forall s rest,
  match_items p s = Some rest ->
  exists pre, s = pre ++ rest /\ length pre = length p.
Proof.
  induction p as [|i p IH]; intros s rest H.
  - injection H as <-. exists []. auto.
  - destruct s as [|c s]; [discriminate|]. cbn [match_items] in H.
    destruct (item_matches i c); [|discriminate].
    destruct (IH _ _ H) as (pre & -> & Hlen).
    exists (c :: pre). cbn. auto.
Qed.

(** A stripped text that the pattern accepts is the 19 characters of the
    pattern and nothing more: the newline that [$] lets through cannot be
    there after [strip]. *)
Lemma accepted_is_canonical text :
  DATETIME_PATTERN_match (strip text) = true ->
  timestamp_ok (strip text) /\ length (strip text) = 19%nat.
Proof.
  unfold DATETIME_PATTERN_match, timestamp_ok. intros H.
  destruct (match_items datetime_items (strip text)) as [rest|] eqn:E;
    [|discriminate].
  destruct (match_items_split _ _ _ E) as (pre & Hs & Hlen).
  destruct rest as [|c [|c' rest]]; [| |discriminate].
  - split; [reflexivity|]. rewrite Hs, app_nil_r. exact Hlen.
  - apply N.eqb_eq in H. subst c.
    apply strip_last in Hs. discriminate Hs.
Qed.

(** X15.  A start time that [ask_end] accepts is stored stripped, and is
    exactly the 19 characters of the pattern: the trailing newline that
    [$] would let through is never stored. *)
Theorem accepted_start_time_is_canonical text s :
  DATETIME_PATTERN_match (strip text) = true ->
  fst (ask_end text s) = Ret (Some ASK_END)
  /\ user_data (snd (ask_end text s)) = <[START_TIME := strip text]> (user_data s)
  /\ timestamp_ok (strip text)
  /\ length (strip text) = 19%nat.
Proof.
  intros H. unfold ask_end. rewrite H.
  split; [reflexivity|]. split; [reflexivity|]. apply accepted_is_canonical, H.
Qed.

(* ===================================================================== *)
(** ** The export loses nothing *)
(* ===================================================================== *)

Lemma export_csv_succeeds first rest document :
  export_csv (first :: rest) = inr document ->
  Forall (fits (keys first)) rest.
Proof.
  intros H. apply Forall_forall. intros r Hr.
  destruct (fits_dec (keys first) r) as [Hf|Hf]; [exact Hf|].
  destruct (export_csv_extra first rest) as (k & ks & Hbad).
  - apply Exists_exists. eauto.
  - rewrite Hbad in H. discriminate.
Qed.

(** X16.  The export loses nothing: two row sequences that export to the
    same text have the same header and the same cells, row by row. *)
Theorem export_csv_is_lossless first1 rest1 first2 rest2 document :
  export_csv (first1 :: rest1) = inr document ->
  export_csv (first2 :: rest2) = inr document ->
  keys first1 = keys first2
  /\ map (cells (keys first1)) (first1 :: rest1)
     = map (cells (keys first2)) (first2 :: rest2).
Proof.
  intros H1 H2.
  pose proof (export_csv_succeeds _ _ _ H1) as F1.
  pose proof (export_csv_succeeds _ _ _ H2) as F2.
  rewrite (export_csv_fits _ _ F1) in H1. rewrite (export_csv_fits _ _ F2) in H2.
  assert (HT : keys first1 :: map (cells (keys first1)) (first1 :: rest1)
               = keys first2 :: map (cells (keys first2)) (first2 :: rest2)).
  { apply (inj Some). rewrite <- !read_written. congruence. }
  split; [exact (f_equal (hd []) HT) | exact (f_equal (@tl _) HT)].
Qed.


(* ===================================================================== *)
(** ** What a run submits *)
(* ===================================================================== *)

Lemma execute_rounds n id p : List.filter is_execute (rounds n id p) = [].
Proof. induction n as [|n IH]; [reflexivity | exact IH]. Qed.

Lemma outputs_rounds n id p : outputs (rounds n id p) = [].
Proof. induction n as [|n IH]; [reflexivity | exact IH]. Qed.

(** A run submits its query once, first of all, and shows nothing. *)
Lemma run_query_submits_once
    w fuel query_id params max_wait_minutes poll_interval s o s2 :
  run_query w fuel query_id params max_wait_minutes poll_interval s = (o, s2) ->
  exists rest,
    trace s2 = trace s ++ Execute query_id params :: rest
    /\ List.filter is_execute rest = []
    /\ outputs rest = []
    /\ user_data s2 = user_data s.
Proof.
  intros H. apply run_query_calls_in_order in H
    as [(e & _ & _ & ->) | (id & k & tail & _ & Ht & He & Hu & _)].
  - exists []. auto.
  - cbn [trace user_data with_trace] in Ht, Hu.
    exists (rounds k id poll_interval ++ tail).
    split; [rewrite Ht, <- app_assoc; reflexivity|].
    rewrite List.filter_app, execute_rounds, outputs_app, outputs_rounds.
    destruct He as [-> | [-> | ->]]; auto.
Qed.

Lemma outputs_not_execute shown :
  outputs shown = shown -> List.filter is_execute shown = [].
Proof.
  unfold outputs. induction shown as [|e shown IH]; [reflexivity|].
  cbn [List.filter]. destruct (is_output e) eqn:E.
  - intros H. injection H as H. destruct e; try discriminate E; cbn; auto.
  - intros H. exfalso.
    assert (In e (List.filter is_output shown)) as Hin by (rewrite H; left; reflexivity).
    apply List.filter_In in Hin as [_ Hin]. congruence.
Qed.

Section Submits.

Variable w : world.
Variables TOP_TRADERS_QUERY TRADES_QUERY : Z.
Variable format_2f : value -> option str.
Variable fuel : nat.

(** The trades step on an accepted end time, when the session holds the
    address and the start time: one query, then what is shown. *)
Lemma fetch_trades_run text s ca start_time :
  (360 <= fuel)%nat ->
  DATETIME_PATTERN_match (strip text) = true ->
  user_data s !! CONTRACT_ADDRESS = Some ca ->
  user_data s !! START_TIME = Some start_time ->
  exists s' rest,
    fetch_trades w TRADES_QUERY fuel text s = (Ret END, s')
    /\ user_data s' = <[END_TIME := strip text]> (user_data s)
    /\ trace s'
       = trace s ++ ReplyText (trades_status ca start_time (strip text))
                 :: Execute TRADES_QUERY (trades_params ca start_time (strip text))
                 :: rest
    /\ List.filter is_execute rest = [].
Proof.
  intros Hfuel Hv Hca Hstart.
  rewrite (valid_end_launches_trades _ _ _ _ _ ca start_time) by assumption.
  destruct (run_query w fuel TRADES_QUERY
              (trades_params ca start_time (strip text)) 30 5
              (trades_launch ca start_time (strip text) s)) as [o s2] eqn:Hrun.
  destruct (run_query_submits_once _ _ _ _ _ _ _ _ _ Hrun)
    as (rest & Ht & He & _ & Hu).
  cbn [trades_launch trace user_data] in Hu, Ht.
  rewrite (try_run _ _ _ _ _ Hrun).
  assert (exists shown,
             match o with
             | Ret a => try_except (trades_view ca a) report_error s2
             | Raise e => report_error e s2
             | OutOfFuel => (OutOfFuel, s2)
             end
             = (Ret END, with_trace s2 (trace s2 ++ shown) (polls s2))
             /\ outputs shown = shown)
    as (shown & -> & Hshown).
  { destruct o as [results|e|].
    - destruct (trades_view_shown ca results s2) as (shown & ? & ? & _). eauto.
    - exists [EditText (ErrorNotice e)]. split; reflexivity.
    - exfalso. apply (run_query_default_terminates w fuel TRADES_QUERY
                        (trades_params ca start_time (strip text))
                        (trades_launch ca start_time (strip text) s) Hfuel).
      rewrite Hrun. reflexivity. }
  eexists. exists (rest ++ shown). split; [reflexivity|].
  unfold with_trace; cbn [trace user_data polls].
  split; [exact Hu|]. split.
  - rewrite Ht, <- !app_assoc. reflexivity.
  - rewrite List.filter_app, He, (outputs_not_execute _ Hshown). reflexivity.
Qed.

(** X17.  After a valid address [handle_ca_top] looks the token up, sends
    the status message and submits the top-traders query exactly once,
    with the stripped address as CA, whatever the lookup gave. *)
Theorem handle_ca_top_submits_once text s :
  valid_ca (strip text) = true ->
  exists rest,
    trace (snd (handle_ca_top w TOP_TRADERS_QUERY format_2f fuel text s))
    = trace s ++ TokenLookup (strip text)
              :: ReplyText (top_status
                              (default UNKNOWN_TOKEN (token_reply w (strip text))))
              :: Execute TOP_TRADERS_QUERY {[ u "CA" := strip text ]}
              :: rest
    /\ List.filter is_execute rest = [].
Proof.
  intros Hv. rewrite valid_ca_launches_top by assumption.
  destruct (run_query w fuel TOP_TRADERS_QUERY {[u "CA" := strip text]} 30 5
              (top_launch w (strip text) s)) as [o s2] eqn:Hrun.
  destruct (run_query_submits_once _ _ _ _ _ _ _ _ _ Hrun)
    as (rest & Ht & He & _ & _).
  cbn [top_launch with_trace trace] in Ht.
  rewrite (try_run _ _ _ _ _ Hrun).
  destruct o as [results|e|].
  - destruct (top_view_shown format_2f
                (default UNKNOWN_TOKEN (token_reply w (strip text))) results s2)
      as (n & ->).
    exists (rest ++ [EditText n]). cbn [snd with_trace trace]. split.
    + rewrite Ht, <- !app_assoc. reflexivity.
    + rewrite List.filter_app, He. reflexivity.
  - exists (rest ++ [EditText (ErrorNotice e)]).
    cbn [snd report_error]. unfold report_error, mbind, M_bind, bind, emit.
    cbn [snd trace]. split.
    + rewrite Ht, <- !app_assoc. reflexivity.
    + rewrite List.filter_app, He. reflexivity.
  - exists rest. cbn [snd]. split; [rewrite Ht, <- !app_assoc; reflexivity | exact He].
Qed.

End Submits.


(* ===================================================================== *)
(** ** The session along a conversation *)
(* ===================================================================== *)

Lemma keeps_ret {A} (a : A) : keeps_session (mret a).
Proof. intros s o s' H. injection H as _ <-. reflexivity. Qed.

Lemma keeps_raise {A} e : keeps_session (@raise A e).
Proof. intros s o s' H. injection H as _ <-. reflexivity. Qed.

Lemma keeps_emit e : keeps_session (emit e).
Proof. intros s o s' H. injection H as _ <-. reflexivity. Qed.

Lemma keeps_bind {A B} (m : M A) (k : A -> M B) :
  keeps_session m -> (forall a, keeps_session (k a)) -> keeps_session (m ≫= k).
Proof.
  intros Hm Hk s o s' H. unfold mbind, M_bind, bind in H.
  destruct (m s) as [[a|e|] s1] eqn:E.
  - rewrite (Hk a _ _ _ H). exact (Hm _ _ _ E).
  - injection H as _ <-. exact (Hm _ _ _ E).
  - injection H as _ <-. exact (Hm _ _ _ E).
Qed.

Lemma keeps_try {A} (m : M A) (h : exn -> M A) :
  keeps_session m -> (forall e, keeps_session (h e)) ->
  keeps_session (try_except m h).
Proof.
  intros Hm Hh s o s' H. unfold try_except in H.
  destruct (m s) as [[a|e|] s1] eqn:E.
  - injection H as _ <-. exact (Hm _ _ _ E).
  - rewrite (Hh e _ _ _ H). exact (Hm _ _ _ E).
  - injection H as _ <-. exact (Hm _ _ _ E).
Qed.

Lemma keeps_quiet {A} (m : M A) : quiet m -> keeps_session m.
Proof. intros Hq s o s' H. destruct (Hq _ _ _ H) as (_ & _ & _ & Hu). exact Hu. Qed.

Lemma keeps_get_user_data k : keeps_session (get_user_data k).
Proof.
  intros s o s' H. unfold get_user_data in H.
  destruct (user_data s !! k); injection H as _ <-; reflexivity.
Qed.

Lemma keeps_report_error e : keeps_session (report_error e).
Proof. apply keeps_bind; [apply keeps_emit | intros; apply keeps_ret]. Qed.

Lemma keeps_trades_view ca results : keeps_session (trades_view ca results).
Proof.
  unfold trades_view. destruct (rows_of results) as [|first rest].
  - apply keeps_bind; [apply keeps_emit | intros; apply keeps_ret].
  - apply keeps_bind; [apply keeps_emit | intros _].
    apply keeps_bind.
    + destruct (export_csv (first :: rest)); [apply keeps_raise | apply keeps_ret].
    + intros output. apply keeps_bind.
      * destruct (encode_utf8 output); [apply keeps_raise | apply keeps_ret].
      * intros document.
        apply keeps_bind; [apply keeps_emit | intros; apply keeps_ret].
Qed.

Lemma set_then_keeps {A} k v (m : M A) s :
  keeps_session m ->
  user_data (snd ((set_user_data k v ≫= fun _ => m) s))
  = <[k := v]> (user_data s).
Proof.
  intros Hm. unfold mbind, M_bind, bind, set_user_data.
  destruct (m {| user_data := <[k:=v]> (user_data s);
                 trace := trace s; polls := polls s |}) as [o s'] eqn:E.
  apply Hm in E. cbn [user_data] in E. destruct o; exact E.
Qed.

Section Session.

Variable w : world.
Variables TOP_TRADERS_QUERY TRADES_QUERY : Z.
Variable format_2f : value -> option str.
Variable fuel : nat.

Local Abbreviation step :=
  (states w TOP_TRADERS_QUERY TRADES_QUERY format_2f fuel).

Lemma keeps_top_view token_name results :
  keeps_session (top_view format_2f token_name results).
Proof.
  unfold top_view. destruct (rows_of results) as [|first rest].
  - apply keeps_bind; [apply keeps_emit | intros; apply keeps_ret].
  - apply keeps_bind.
    + intros s o s' H.
      destruct (top_message_pure format_2f (first :: rest)
                  (u "📊 *Top Traders for " ++ token_name ++ u "*" ++ nl ++ nl) s)
        as [(m & Hm) | (e & Hm)]; rewrite Hm in H; injection H as _ <-; reflexivity.
    + intros msg. apply keeps_bind; [apply keeps_emit | intros; apply keeps_ret].
Qed.

Lemma keeps_handle_ca_top text :
  keeps_session (handle_ca_top w TOP_TRADERS_QUERY format_2f fuel text).
Proof.
  unfold handle_ca_top. destruct (negb (valid_ca (strip text))).
  - apply keeps_bind; [apply keeps_emit | intros; apply keeps_ret].
  - apply keeps_bind.
    + apply keeps_bind; [apply keeps_emit | intros; apply keeps_ret].
    + intros token_name. apply keeps_bind; [apply keeps_emit | intros _].
      apply keeps_try; [|apply keeps_report_error].
      apply keeps_bind; [apply keeps_quiet, quiet_run_query | intros results].
      apply keeps_top_view.
Qed.

(** What a step does to the session: nothing, or it stores the stripped
    text under the key of its state, after validating it. *)
Lemma step_session state text s :
  user_data (snd (step state text s)) = user_data s
  \/ (state = ASK_CA_TRADES /\ valid_ca (strip text) = true
      /\ user_data (snd (step state text s))
         = <[CONTRACT_ADDRESS := strip text]> (user_data s))
  \/ (state = ASK_START /\ DATETIME_PATTERN_match (strip text) = true
      /\ user_data (snd (step state text s))
         = <[START_TIME := strip text]> (user_data s))
  \/ (state = ASK_END /\ DATETIME_PATTERN_match (strip text) = true
      /\ user_data (snd (step state text s))
         = <[END_TIME := strip text]> (user_data s)).
Proof.
  destruct state; cbn [states].
  - left. destruct (handle_ca_top w TOP_TRADERS_QUERY format_2f fuel text s)
      as [o s'] eqn:E. exact (keeps_handle_ca_top text _ _ _ E).
  - unfold ask_start. destruct (valid_ca (strip text)) eqn:Hv; cbn [negb].
    + right; left. repeat split.
    + left. reflexivity.
  - unfold ask_end. destruct (DATETIME_PATTERN_match (strip text)) eqn:Hv; cbn [negb].
    + right; right; left. repeat split.
    + left. reflexivity.
  - unfold fetch_trades.
    destruct (DATETIME_PATTERN_match (strip text)) eqn:Hv; cbn [negb].
    + right; right; right. split; [reflexivity|]. split; [reflexivity|].
      apply set_then_keeps.
      apply keeps_bind; [apply keeps_get_user_data | intros ca].
      apply keeps_bind; [apply keeps_get_user_data | intros start_time].
      apply keeps_bind; [apply keeps_emit | intros _].
      apply keeps_try; [|apply keeps_report_error].
      apply keeps_bind; [apply keeps_quiet, quiet_run_query | intros results].
      apply keeps_trades_view.
    + left. reflexivity.
Qed.

Lemma valid_ca_bounds ca : valid_ca ca = true -> 32 <= len ca <= 44.
Proof.
  unfold valid_ca. intros H. apply andb_true_iff in H as [H1 H2].
  apply Z.leb_le in H1, H2. lia.
Qed.

Lemma session_stays_valid_step state text s :
  session_ok (user_data s) ->
  session_ok (user_data (snd (step state text s))).
Proof.
  intros (Hca & Hst & Hen).
  destruct (step_session state text s)
    as [-> | [(_ & Hv & ->) | [(_ & Hv & ->) | (_ & Hv & ->)]]].
  - exact (conj Hca (conj Hst Hen)).
  - split; [|split].
    + intros ca. rewrite lookup_insert_eq. intros H. injection H as <-.
      apply valid_ca_bounds, Hv.
    + intros t. rewrite lookup_insert_ne by (vm_compute; discriminate). apply Hst.
    + intros t. rewrite lookup_insert_ne by (vm_compute; discriminate). apply Hen.
  - split; [|split].
    + intros ca. rewrite lookup_insert_ne by (vm_compute; discriminate). apply Hca.
    + intros t. rewrite lookup_insert_eq. intros H. injection H as <-.
      apply accepted_is_canonical, Hv.
    + intros t. rewrite lookup_insert_ne by (vm_compute; discriminate). apply Hen.
  - split; [|split].
    + intros ca. rewrite lookup_insert_ne by (vm_compute; discriminate). apply Hca.
    + intros t. rewrite lookup_insert_ne by (vm_compute; discriminate). apply Hst.
    + intros t. rewrite lookup_insert_eq. intros H. injection H as <-.
      apply accepted_is_canonical, Hv.
Qed.

(** X18.  Along a conversation the session only holds validated values:
    an address of 32 to 44 characters and timestamps of the 19 characters
    of the pattern.  Every step keeps this, whatever the messages and the
    remote side. *)
Theorem conversation_keeps_session_valid messages : forall state s,
  session_ok (user_data s) ->
  session_ok (user_data
                (snd (converse w TOP_TRADERS_QUERY TRADES_QUERY format_2f fuel
                        state messages s))).
Proof.
  induction messages as [|m messages IH]; intros state s Hok; [exact Hok|].
  cbn [converse]. destruct (text_not_command m) as [t|]; [|apply IH, Hok].
  unfold mbind, M_bind, bind.
  pose proof (session_stays_valid_step state t s Hok) as Hstep.
  destruct (step state t s) as [[[state'|]|e|] s1]; cbn [snd] in *;
    try exact Hstep.
  apply IH. exact Hstep.
Qed.

End Session.


Section Conversations.

Variable w : world.
Variables TOP_TRADERS_QUERY TRADES_QUERY : Z.
Variable format_2f : value -> option str.
Variable fuel : nat.

Local Abbreviation talk :=
  (converse w TOP_TRADERS_QUERY TRADES_QUERY format_2f fuel).

(** X19.  Any number of messages in a row, of which those that reach the
    handler (texts that are not commands) are invalid timestamps, leave
    the conversation in the state that awaits the timestamp: one re-prompt
    for every message that reached the handler, nothing from the
    conversation for a command or a message without text, and nothing
    else done. *)
Theorem invalid_timestamps_only_reprompt state messages : forall s,
  state = ASK_START \/ state = ASK_END ->
  Forall (fun t => DATETIME_PATTERN_match (strip t) = false)
         (dispatched messages) ->
  talk state messages s
  = (Ret (Some state),
     with_trace s
       (trace s ++ map (fun _ => ReplyText INVALID_FORMAT) (dispatched messages))
       (polls s)).
Proof.
  induction messages as [|m messages IH]; intros s Hstate Hbad.
  - cbn. rewrite app_nil_r, with_trace_same. reflexivity.
  - cbn [converse dispatched] in *.
    destruct (text_not_command m) as [t|]; [|apply IH; assumption].
    inversion Hbad as [|? ? Htext Htexts]; subst.
    unfold mbind, M_bind, bind.
    rewrite invalid_timestamp_step by assumption.
    rewrite IH by assumption.
    unfold with_trace; cbn [trace user_data polls map].
    rewrite <- app_assoc. reflexivity.
Qed.

Lemma ask_start_valid text s :
  valid_ca (strip text) = true ->
  exists prompt,
    ask_start w text s
    = (Ret (Some ASK_START),
       {| user_data := <[CONTRACT_ADDRESS := strip text]> (user_data s);
          trace := trace s ++ [TokenLookup (strip text); ReplyText prompt];
          polls := polls s |}).
Proof.
  intros Hv. unfold ask_start. rewrite Hv. cbn [negb].
  unfold get_token_name, set_user_data, mbind, M_bind, bind, emit, mret, M_ret, ret.
  cbn [trace user_data polls]. rewrite <- app_assoc. eexists. reflexivity.
Qed.

Lemma ask_end_valid text s :
  DATETIME_PATTERN_match (strip text) = true ->
  ask_end text s
  = (Ret (Some ASK_END),
     {| user_data := <[START_TIME := strip text]> (user_data s);
        trace := trace s ++ [ReplyText GOT_START_TIME];
        polls := polls s |}).
Proof. intros Hv. unfold ask_end. rewrite Hv. reflexivity. Qed.

(** X20.  A trades conversation of three messages that reach their
    handlers (texts that are not commands) with a valid address, start
    time and end time ends, submits exactly one query, the trades query,
    with the three stripped values as its parameters, and leaves them in
    the session. *)
Theorem trades_conversation_submits_validated_query ma mb mc a b c s :
  (360 <= fuel)%nat ->
  text_not_command ma = Some a ->
  text_not_command mb = Some b ->
  text_not_command mc = Some c ->
  valid_ca (strip a) = true ->
  DATETIME_PATTERN_match (strip b) = true ->
  DATETIME_PATTERN_match (strip c) = true ->
  exists s' evs,
    talk ASK_CA_TRADES [ma; mb; mc] s = (Ret END, s')
    /\ trace s' = trace s ++ evs
    /\ List.filter is_execute evs
       = [Execute TRADES_QUERY (trades_params (strip a) (strip b) (strip c))]
    /\ user_data s'
       = <[END_TIME := strip c]>
           (<[START_TIME := strip b]>
              (<[CONTRACT_ADDRESS := strip a]> (user_data s))).
Proof.
  intros Hfuel Hma Hmb Hmc Ha Hb Hc.
  destruct (ask_start_valid a s Ha) as (prompt & Hstart).
  cbn [converse states]. rewrite Hma, Hmb, Hmc. unfold mbind, M_bind, bind.
  rewrite Hstart, (ask_end_valid b _ Hb).
  cbn [trace user_data polls].
  destruct (fetch_trades_run w TRADES_QUERY fuel c
              {| user_data := <[START_TIME := strip b]>
                                (<[CONTRACT_ADDRESS := strip a]> (user_data s));
                 trace := (trace s ++ [TokenLookup (strip a); ReplyText prompt])
                          ++ [ReplyText GOT_START_TIME];
                 polls := polls s |} (strip a) (strip b))
    as (s' & rest & Hrun & Hu & Ht & He);
    [ assumption | assumption
    | cbn [user_data];
      rewrite lookup_insert_ne by (vm_compute; discriminate);
      apply lookup_insert_eq
    | cbn [user_data]; apply lookup_insert_eq | ].
  cbn [states]. rewrite Hrun. cbn [trace user_data] in Hu, Ht.
  exists s'. eexists. split; [reflexivity|]. split.
  - rewrite Ht, <- !app_assoc. reflexivity.
  - split; [|exact Hu]. cbn [app List.filter is_execute]. rewrite He. reflexivity.
Qed.

End Conversations.


(* ===================================================================== *)
(** ** Instances *)
(* ===================================================================== *)

Lemma w_slow_pending k :
  (k < 2)%nat ->
  exists state, status_reply w_slow (polls initial + k) = Ok (Some state)
                /\ terminal state = false.
Proof.
  intros Hk. exists QUERY_STATE_PENDING.
  destruct k as [|[|k]]; [split; vm_compute; reflexivity .. | lia].
Qed.

Lemma w_pending_never k :
  exists state, status_reply w_pending k = Ok (Some state)
                /\ terminal state = false.
Proof. exists QUERY_STATE_PENDING. split; vm_compute; reflexivity. Qed.

Lemma run_query_returns_after_pending_witness :
  run_query w_slow 3 7 ∅ 30 5 initial
  = (Ret (a_results [a_trade (u "alice")]),
     with_trace initial
       (trace initial ++ Execute 7 ∅ :: rounds 2 (u "01HX") 5
                ++ [GetStatus (u "01HX"); GetResults (u "01HX")])
       (polls initial + 2 + 1))
  /\ slept (Execute 7 ∅ :: rounds 2 (u "01HX") 5
            ++ [GetStatus (u "01HX"); GetResults (u "01HX")]) = Z.of_nat 2 * 5
  /\ count is_results_fetch
       (Execute 7 ∅ :: rounds 2 (u "01HX") 5
        ++ [GetStatus (u "01HX"); GetResults (u "01HX")]) = 1%nat.
Proof.
  apply (run_query_returns_after_pending
           w_slow 3 7 ∅ 30 5 (u "01HX") initial 2
           (a_results [a_trade (u "alice")])).
  - reflexivity.
  - lia.
  - apply w_slow_pending.
  - reflexivity.
  - reflexivity.
  - intros k Hk. lia.
  - lia.
Defined.

Lemma run_query_raises_on_failing_check_witness :
  run_query (w_after 1 Failed []) 2 7 ∅ 30 5 initial
  = (Raise HTTPError,
     with_trace initial
       (trace initial ++ Execute 7 ∅ :: rounds 1 (u "01HX") 5
                ++ [GetStatus (u "01HX")])
       (polls initial + 1 + 1))
  /\ count is_results_fetch
       (Execute 7 ∅ :: rounds 1 (u "01HX") 5 ++ [GetStatus (u "01HX")])
     = 0%nat.
Proof.
  apply (run_query_raises_on_failing_check
           (w_after 1 Failed []) 2 7 ∅ 30 5 (u "01HX") initial 1 HTTPError).
  - reflexivity.
  - lia.
  - intros k Hk. exists QUERY_STATE_PENDING.
    destruct k as [|k]; [split; vm_compute; reflexivity | lia].
  - reflexivity.
  - intros k Hk. lia.
  - lia.
Defined.

Lemma run_query_timeout_check_count_witness :
  run_query w_pending 9 7 ∅ 1 7 initial
  = (Raise TimeoutError,
     with_trace initial (trace initial ++ Execute 7 ∅ :: rounds 9 (u "01HX") 7)
                (polls initial + 9))
  /\ count is_status_check (Execute 7 ∅ :: rounds 9 (u "01HX") 7) = 9%nat
  /\ slept (Execute 7 ∅ :: rounds 9 (u "01HX") 7) = Z.of_nat 9 * 7.
Proof.
  apply (run_query_timeout_check_count
           w_pending 9 7 ∅ 1 7 (u "01HX") initial 9).
  - lia.
  - reflexivity.
  - apply w_pending_never.
  - lia.
  - lia.
  - lia.
Defined.

Lemma run_query_without_budget_checks_nothing_witness :
  run_query (w_done []) 5 7 ∅ 0 5 initial
  = (Raise TimeoutError,
     with_trace initial (trace initial ++ [Execute 7 ∅]) (polls initial)).
Proof.
  apply (run_query_without_budget_checks_nothing
           (w_done []) 5 7 ∅ 0 5 (u "01HX") initial).
  - reflexivity.
  - lia.
Defined.

Lemma run_query_calls_in_order_witness :
  (exists e,
      submit_failure (execute_reply w_slow 7 ∅) = Some e
      /\ fst a_run = Raise e
      /\ snd a_run = with_trace initial (trace initial ++ [Execute 7 ∅])
                                (polls initial))
  \/ (exists id k tail,
         execute_reply w_slow 7 ∅ = Ok (Some id)
         /\ loop_run w_slow id (30 * 60) 5 0
              (with_trace initial (trace initial ++ [Execute 7 ∅]) (polls initial))
              (snd a_run) (fst a_run) k tail).
Proof.
  apply (run_query_calls_in_order w_slow 3 7 ∅ 30 5 initial (fst a_run) (snd a_run)).
  vm_compute; reflexivity.
Defined.

Lemma run_query_sleeps_less_than_budget_plus_interval_witness :
  exists evs,
    trace (snd a_long_run) = trace initial ++ evs
    /\ (slept evs = 0 \/ slept evs < 1 * 60 + 20).
Proof.
  apply (run_query_sleeps_less_than_budget_plus_interval
           w_pending 4 7 ∅ 1 20 initial (fst a_long_run) (snd a_long_run)).
  vm_compute; reflexivity.
Defined.

Lemma run_query_terminates_witness :
  fst (run_query w_pending 360 7 ∅ 30 5 initial) <> OutOfFuel.
Proof.
  apply (run_query_terminates w_pending 360 7 ∅ 30 5 initial); lia.
Defined.

Lemma run_query_never_ends_on_zero_interval_witness :
  fst (run_query w_pending 50 7 ∅ 30 0 initial) = OutOfFuel.
Proof.
  apply (run_query_never_ends_on_zero_interval
           w_pending 50 7 ∅ 30 (u "01HX") initial).
  - lia.
  - reflexivity.
  - apply w_pending_never.
Defined.



Lemma handle_ca_top_always_ends_witness :
  exists s' evs,
    handle_ca_top (w_done []) 1 whole_2f 360 a_ca initial = (Ret END, s')
    /\ user_data s' = user_data initial
    /\ trace s' = trace initial ++ evs
    /\ count is_document evs = 0%nat
    /\ (valid_ca (strip a_ca) = true -> exists n, outputs evs = [EditText n]).
Proof.
  apply (handle_ca_top_always_ends (w_done []) 1 whole_2f 360 a_ca initial). lia.
Defined.

Lemma flows_report_poller_errors_witness :
  (exists evs,
     handle_ca_top w_failed 1 whole_2f 1 a_ca initial
     = (Ret END,
        with_trace
          (snd (run_query w_failed 1 1 {[ u "CA" := strip a_ca ]} 30 5
                  (top_launch w_failed (strip a_ca) initial)))
          (trace initial ++ evs)
          (polls (snd (run_query w_failed 1 1 {[ u "CA" := strip a_ca ]} 30 5
                         (top_launch w_failed (strip a_ca) initial)))))
     /\ outputs evs = [EditText (ErrorNotice (QueryFailed QUERY_STATE_FAILED))])
  /\ (exists evs,
       fetch_trades w_failed 2 1 an_end s_ready
       = (Ret END,
          with_trace
            (snd (run_query w_failed 1 2
                    (trades_params a_ca a_start (strip an_end)) 30 5
                    (trades_launch a_ca a_start (strip an_end) s_ready)))
            (trace s_ready ++ evs)
            (polls (snd (run_query w_failed 1 2
                           (trades_params a_ca a_start (strip an_end)) 30 5
                           (trades_launch a_ca a_start (strip an_end) s_ready)))))
       /\ outputs evs = [EditText (ErrorNotice (QueryFailed QUERY_STATE_FAILED))]).
Proof.
  split.
  - apply (proj1 (flows_report_poller_errors
                    w_failed 1 2 whole_2f 1 a_ca initial
                    (QueryFailed QUERY_STATE_FAILED)
                    (snd (run_query w_failed 1 1 {[ u "CA" := strip a_ca ]} 30 5
                            (top_launch w_failed (strip a_ca) initial)))));
      vm_compute; reflexivity.
  - apply (proj2 (flows_report_poller_errors
                    w_failed 1 2 whole_2f 1 an_end s_ready
                    (QueryFailed QUERY_STATE_FAILED)
                    (snd (run_query w_failed 1 2
                            (trades_params a_ca a_start (strip an_end)) 30 5
                            (trades_launch a_ca a_start (strip an_end) s_ready))))
                 a_ca a_start);
      vm_compute; reflexivity.
Defined.

Lemma a_short_trade_fits : fits (keys (a_trade (u "alice"))) a_short_trade.
Proof.
  intros k Hk. apply list_elem_of_In in Hk. vm_compute in Hk.
  destruct Hk as [<- | []]. apply list_elem_of_In. vm_compute. tauto.
Qed.

Lemma trades_flow_always_exports_witness :
  exists evs document,
    fetch_trades (w_done [a_trade (u "alice"); a_short_trade]) 2 1 an_end s_ready
    = (Ret END,
       with_trace (s_fetched [a_trade (u "alice"); a_short_trade])
         (trace s_ready ++ evs)
         (polls (s_fetched [a_trade (u "alice"); a_short_trade])))
    /\ outputs evs
       = [EditText (inline_view
                      (trades_message [a_trade (u "alice"); a_short_trade]));
          ReplyDocument (u "trades_" ++ a_ca ++ u ".csv") document CAPTION]
    /\ (len (trades_message [a_trade (u "alice"); a_short_trade]) <= 4096 ->
        inline_view (trades_message [a_trade (u "alice"); a_short_trade])
        = Text (trades_message [a_trade (u "alice"); a_short_trade]))
    /\ read_csv document
       = Some (keys (a_trade (u "alice"))
               :: map (cells (keys (a_trade (u "alice"))))
                      [a_trade (u "alice"); a_short_trade]).
Proof.
  apply (trades_flow_always_exports
           (w_done [a_trade (u "alice"); a_short_trade]) 2 1 an_end s_ready
           a_ca a_start (a_results [a_trade (u "alice"); a_short_trade])
           (s_fetched [a_trade (u "alice"); a_short_trade])
           (a_trade (u "alice")) [a_short_trade]).
  - vm_compute; reflexivity.
  - vm_compute; reflexivity.
  - vm_compute; reflexivity.
  - vm_compute; reflexivity.
  - reflexivity.
  - constructor; [apply a_short_trade_fits | constructor].
  - vm_compute; reflexivity.
Defined.


Lemma fetch_trades_always_ends_witness :
  exists s' evs,
    fetch_trades (w_done [a_trade (u "alice")]) 2 360 an_end s_ready
    = (Ret END, s')
    /\ user_data s' = <[END_TIME := strip an_end]> (user_data s_ready)
    /\ trace s' = trace s_ready ++ evs
    /\ trades_outputs a_ca (outputs evs).
Proof.
  apply (fetch_trades_always_ends
           (w_done [a_trade (u "alice")]) 2 360 an_end s_ready a_ca a_start).
  - lia.
  - vm_compute; reflexivity.
  - vm_compute; reflexivity.
  - vm_compute; reflexivity.
Defined.

Lemma top_view_renders_every_row_witness :
  exists evs,
    handle_ca_top (w_done [a_top_trader (u "alice"); a_top_trader (u "bob")])
      1 whole_2f 1 a_ca initial
    = (Ret END,
       with_trace
         (s_fetched_top [a_top_trader (u "alice"); a_top_trader (u "bob")])
         (trace initial ++ evs)
         (polls (s_fetched_top [a_top_trader (u "alice"); a_top_trader (u "bob")])))
    /\ outputs evs
       = [EditText
            (Text (top_title
                     (default UNKNOWN_TOKEN
                        (token_reply
                           (w_done [a_top_trader (u "alice"); a_top_trader (u "bob")])
                           (strip a_ca)))
                   ++ concat
                        [default [] (top_entry_text whole_2f (a_top_trader (u "alice")));
                         default [] (top_entry_text whole_2f (a_top_trader (u "bob")))]))]
    /\ length [default [] (top_entry_text whole_2f (a_top_trader (u "alice")));
               default [] (top_entry_text whole_2f (a_top_trader (u "bob")))]
       = length [a_top_trader (u "alice"); a_top_trader (u "bob")].
Proof.
  apply (top_view_renders_every_row
           (w_done [a_top_trader (u "alice"); a_top_trader (u "bob")])
           1 whole_2f 1 a_ca initial
           (a_results [a_top_trader (u "alice"); a_top_trader (u "bob")])
           (s_fetched_top [a_top_trader (u "alice"); a_top_trader (u "bob")])
           (a_top_trader (u "alice")) [a_top_trader (u "bob")]).
  - vm_compute; reflexivity.
  - vm_compute; reflexivity.
  - reflexivity.
  - repeat constructor.
Defined.

Lemma top_view_rejects_incomplete_rows_witness :
  exists evs e,
    handle_ca_top (w_done [a_top_trader (u "alice"); a_short_trade])
      1 whole_2f 1 a_ca initial
    = (Ret END,
       with_trace (s_fetched_top [a_top_trader (u "alice"); a_short_trade])
         (trace initial ++ evs)
         (polls (s_fetched_top [a_top_trader (u "alice"); a_short_trade])))
    /\ outputs evs = [EditText (ErrorNotice e)]
    /\ (e = FormatError \/ exists k, e = KeyError k).
Proof.
  apply (top_view_rejects_incomplete_rows
           (w_done [a_top_trader (u "alice"); a_short_trade])
           1 whole_2f 1 a_ca initial
           (a_results [a_top_trader (u "alice"); a_short_trade])
           (s_fetched_top [a_top_trader (u "alice"); a_short_trade])).
  - vm_compute; reflexivity.
  - vm_compute; reflexivity.
  - right. left. vm_compute; reflexivity.
Defined.

Lemma accepted_start_time_is_canonical_witness :
  fst (ask_end a_padded_start initial) = Ret (Some ASK_END)
  /\ user_data (snd (ask_end a_padded_start initial))
     = <[START_TIME := strip a_padded_start]> (user_data initial)
  /\ timestamp_ok (strip a_padded_start)
  /\ length (strip a_padded_start) = 19%nat.
Proof.
  apply (accepted_start_time_is_canonical a_padded_start initial).
  vm_compute; reflexivity.
Defined.

Lemma export_csv_is_lossless_witness :
  keys (a_trade (u "alice")) = keys (a_trade (u "alice"))
  /\ map (cells (keys (a_trade (u "alice"))))
         [a_trade (u "alice"); a_trade (u "bob")]
     = map (cells (keys (a_trade (u "alice"))))
           [a_trade (u "alice"); a_trade_reordered (u "bob")].
Proof.
  apply (export_csv_is_lossless
           (a_trade (u "alice")) [a_trade (u "bob")]
           (a_trade (u "alice")) [a_trade_reordered (u "bob")]
           (match export_csv [a_trade (u "alice"); a_trade (u "bob")] with
            | inr document => document
            | inl _ => []
            end)).
  - vm_compute; reflexivity.
  - vm_compute; reflexivity.
Defined.

Lemma handle_ca_top_submits_once_witness :
  exists rest,
    trace (snd (handle_ca_top (w_done []) 1 whole_2f 1 a_ca initial))
    = trace initial ++ TokenLookup (strip a_ca)
              :: ReplyText (top_status
                              (default UNKNOWN_TOKEN
                                 (token_reply (w_done []) (strip a_ca))))
              :: Execute 1 {[ u "CA" := strip a_ca ]}
              :: rest
    /\ List.filter is_execute rest = [].
Proof.
  apply (handle_ca_top_submits_once (w_done []) 1 whole_2f 1 a_ca initial).
  vm_compute; reflexivity.
Defined.

Lemma session_ok_empty : session_ok (user_data initial).
Proof.
  unfold session_ok, initial. cbn [user_data].
  split; [|split]; intros x Hx; rewrite lookup_empty in Hx; discriminate.
Qed.

Lemma conversation_keeps_session_valid_witness :
  session_ok
    (user_data
       (snd (converse w_pending 1 2 whole_2f 1 ASK_CA_TRADES
               [plain a_ca; command (u "/start"); plain a_padded_start;
                plain (u "tomorrow")] initial))).
Proof.
  apply (conversation_keeps_session_valid
           w_pending 1 2 whole_2f 1
           [plain a_ca; command (u "/start"); plain a_padded_start;
            plain (u "tomorrow")]
           ASK_CA_TRADES initial).
  apply session_ok_empty.
Defined.

Lemma invalid_timestamps_only_reprompt_witness :
  converse w_pending 1 2 whole_2f 1 ASK_START
    [plain (u "tomorrow"); command (u "/help"); plain (u "2025-09-05")] s_ready
  = (Ret (Some ASK_START),
     with_trace s_ready
       (trace s_ready
        ++ map (fun _ => ReplyText INVALID_FORMAT)
               (dispatched [plain (u "tomorrow"); command (u "/help");
                            plain (u "2025-09-05")]))
       (polls s_ready)).
Proof.
  apply (invalid_timestamps_only_reprompt
           w_pending 1 2 whole_2f 1 ASK_START
           [plain (u "tomorrow"); command (u "/help"); plain (u "2025-09-05")]
           s_ready).
  - left; reflexivity.
  - replace (dispatched [plain (u "tomorrow"); command (u "/help");
                          plain (u "2025-09-05")])
      with [u "tomorrow"; u "2025-09-05"] by (vm_compute; reflexivity).
    repeat constructor.
Defined.

Lemma trades_conversation_submits_validated_query_witness :
  exists s' evs,
    converse (w_done [a_trade (u "alice")]) 1 2 whole_2f 360 ASK_CA_TRADES
      [plain a_ca; plain a_padded_start; plain an_end] initial = (Ret END, s')
    /\ trace s' = trace initial ++ evs
    /\ List.filter is_execute evs
       = [Execute 2 (trades_params (strip a_ca) (strip a_padded_start)
                                   (strip an_end))]
    /\ user_data s'
       = <[END_TIME := strip an_end]>
           (<[START_TIME := strip a_padded_start]>
              (<[CONTRACT_ADDRESS := strip a_ca]> (user_data initial))).
Proof.
  apply (trades_conversation_submits_validated_query
           (w_done [a_trade (u "alice")]) 1 2 whole_2f 360
           (plain a_ca) (plain a_padded_start) (plain an_end)
           a_ca a_padded_start an_end initial).
  - lia.
  - vm_compute; reflexivity.
  - vm_compute; reflexivity.
  - vm_compute; reflexivity.
  - vm_compute; reflexivity.
  - vm_compute; reflexivity.
  - vm_compute; reflexivity.
Defined.
